(** * TcpConnection: the per-connection engine of the TCP transport

    A shallow embedding of [src/maidsafe/transport/tcpconnection.cc].

    Every member function of [transport::TcpConnection] is a computation
    in a small monad that threads the connection object, logs what the
    function asks of its collaborators (the asio socket and timer, the
    owning transport and its callbacks) and may stop early.  Asynchronous
    operations are logged with the handler they were bound to; the
    reactor that later runs the handler is the last part of the model.

    The socket and the timer are boost::asio's and behave as its manual
    says: [async_connect] opens a socket that is not open, [close] on a
    closed socket does nothing, [expires_from_now] and [cancel] cancel
    the wait that is pending, and a cancelled wait completes with
    [operation_aborted].

    The headers of the class are not among the sources.  What they
    declare ([DataSize], [Timeout], the constants, the [Buffer] class)
    is gathered in [Environment] and stays a parameter of every
    theorem. *)

From Stdlib Require Import ZArith List Bool Lia.
From coqutil Require Import Byte Word.LittleEndianList.
Import ListNotations.
Local Open Scope Z_scope.

(** ** Data *)

(** [std::string]: a sequence of bytes; [size] is [std::string::size]. *)
Definition size (s : list byte) : Z := Z.of_nat (length s).

Definition empty (s : list byte) : bool :=
  match s with [] => true | _ :: _ => false end.

(** [Timeout] is declared in a header that is not part of the sources.
    Modelled from the spec: a duration; here a whole number of clock
    ticks, ordered and compared as the integers are. *)
Definition Timeout := Z.

(** The error kinds handed to the transport's [on_error_] callback. *)
Inductive TransportCondition :=
| kReceiveTimeout
| kReceiveFailure
| kSendTimeout
| kSendFailure
| kMessageSizeTooLarge.

(** [boost::system::error_code]; [if (ec)] holds for all but success. *)
Inductive error_code :=
| success
| operation_aborted
| system_error (code : Z).

Definition is_set (ec : error_code) : bool :=
  match ec with success => false | _ => true end.

(** One byte of storage in [buffer_].  The source stores two kinds of
    thing there: integers and characters, a byte at a time ([Char]), and,
    at line 156, a [std::string] object ([StringObject s i] is byte [i]
    of the object representation of a string whose value is [s]; that
    representation is the implementation's, and is not the characters of
    [s]).  Storage handed out by [Allocate] and not yet written is
    [Indeterminate]. *)
Inductive cell :=
| Char (b : byte)
| Indeterminate
| StringObject (s : list byte) (i : nat).

(** The member functions that [boost::bind] turns into completion
    handlers. *)
Inductive Handler :=
| bind_HandleTimeout
| bind_HandleSize
| bind_HandleRead
| bind_HandleConnect
| bind_HandleWrite.

(** What a member function asks of its collaborators, in program order. *)
Inductive Effect :=
| on_error (e : TransportCondition)
| on_message_received (data : list byte)
| RemoveConnection
| socket_close
| socket_async_connect (h : Handler)
| timer_cancel
| timer_expires_from_now (t : Timeout)
| timer_async_wait (h : Handler)
| async_read (n : Z) (h : Handler)
| async_write (frame : list cell) (h : Handler).

(** [boost::asio::deadline_timer]: an expiry time and at most one
    asynchronous wait on it. *)
Record deadline_timer := {
  expiry : Timeout;
  pending_wait : bool
}.

(** The data members of [TcpConnection].  [transport_] and
    [remote_endpoint_] never change and are the environment below. *)
Record TcpConnection := {
  socket_ : bool;                      (* socket_.is_open() *)
  timer_ : deadline_timer;
  buffer_ : list cell;
  timeout_for_response_ : Timeout
}.

(** What the headers and the owning transport supply.  None of it is
    declared in the sources, so all of it is a parameter of the model. *)
Record Environment := {
  (* sizeof(DataSize), the width of the length field *)
  sizeof_DataSize : nat;
  (* the host's byte order *)
  big_endian : bool;
  (* sizeof(std::string) *)
  sizeof_string : nat;
  kMaxTransportMessageSize : Z;
  kDefaultInitialTimeout : Timeout;
  kMinTimeout : Timeout;
  kImmediateTimeout : Timeout;
  (* n |-> static_cast<Timeout>(n * kTimeoutFactor) *)
  scale_by_kTimeoutFactor : Z -> Timeout;
  (* asserts are compiled out *)
  NDEBUG : bool;
  (* the application's handler behind on_message_received_: from the
     payload and the initial values of *response and *response_timeout
     to their final values *)
  message_handler : list byte -> list byte * Timeout -> list byte * Timeout
}.

(** ** The monad *)

(** Why a member function did not run to its end. *)
Inductive stop :=
| assertion_failed
| undefined_read
| store_out_of_bounds
| read_pending.

Inductive result (A : Type) :=
| Ok (a : A)
| Stop (s : stop).
Arguments Ok {A} a.
Arguments Stop {A} s.

Definition M (A : Type) : Type :=
  TcpConnection -> list Effect * TcpConnection * result A.

Definition ret {A} (a : A) : M A := fun c => ([], c, Ok a).

Definition bind {A B} (m : M A) (k : A -> M B) : M B :=
  fun c =>
    match m c with
    | (e1, c1, Ok a) =>
        match k a c1 with
        | (e2, c2, r) => (e1 ++ e2, c2, r)
        end
    | (e1, c1, Stop s) => (e1, c1, Stop s)
    end.

Declare Scope conn_scope.
Delimit Scope conn_scope with conn.
Notation "x <- m ;; k" := (bind m (fun x => k))
  (at level 61, m at next level, right associativity) : conn_scope.
Notation "m ;; k" := (bind m (fun _ => k))
  (at level 61, right associativity) : conn_scope.
Local Open Scope conn_scope.

Definition emit (e : Effect) : M unit := fun c => ([e], c, Ok tt).
Definition halt {A} (s : stop) : M A := fun c => ([], c, Stop s).
Definition get : M TcpConnection := fun c => ([], c, Ok c).
Definition modify (f : TcpConnection -> TcpConnection) : M unit :=
  fun c => ([], f c, Ok tt).

(** Projections of a run. *)
Definition effects {A} (r : list Effect * TcpConnection * result A) : list Effect :=
  fst (fst r).
Definition state {A} (r : list Effect * TcpConnection * result A) : TcpConnection :=
  snd (fst r).
Definition outcome {A} (r : list Effect * TcpConnection * result A) : result A :=
  snd r.

(** Field updates. *)
Definition set_socket (b : bool) (c : TcpConnection) : TcpConnection :=
  {| socket_ := b; timer_ := timer_ c; buffer_ := buffer_ c;
     timeout_for_response_ := timeout_for_response_ c |}.
Definition set_timer (t : deadline_timer) (c : TcpConnection) : TcpConnection :=
  {| socket_ := socket_ c; timer_ := t; buffer_ := buffer_ c;
     timeout_for_response_ := timeout_for_response_ c |}.
Definition set_buffer (b : list cell) (c : TcpConnection) : TcpConnection :=
  {| socket_ := socket_ c; timer_ := timer_ c; buffer_ := b;
     timeout_for_response_ := timeout_for_response_ c |}.
Definition set_timeout_for_response (t : Timeout) (c : TcpConnection) : TcpConnection :=
  {| socket_ := socket_ c; timer_ := timer_ c; buffer_ := buffer_ c;
     timeout_for_response_ := t |}.

(** ** The buffer

    The [Buffer] class is not part of the sources.
    Modelled from the spec: a resizable byte container, reallocated per
    operation rather than grown; [Allocate n] leaves it with exactly [n]
    bytes of fresh storage. *)
Definition Allocate (n : Z) : list cell := repeat Indeterminate (Z.to_nat n).

(** [buffer_.Size()]. *)
Definition Size (b : list cell) : Z := Z.of_nat (length b).

(** The buffer [b] with the cells [new] stored at offset [off], for a
    store that lies within [b]. *)
Definition store (off : nat) (new : list cell) (b : list cell) : list cell :=
  firstn off b ++ new ++ skipn (off + length new) b.

(** A store through [buffer_.Data() + off].  Nothing in the source
    checks that it fits.  A store that runs past the end of the
    allocation is undefined behaviour that overwrites the heap behind
    the buffer: the run stops there and is not followed further. *)
Definition buffer_store (off : nat) (new : list cell) : M unit :=
  c <- get ;;
  if Nat.leb (off + length new) (length (buffer_ c))
  then modify (set_buffer (store off new (buffer_ c)))
  else halt store_out_of_bounds.

(** The characters held by a run of cells, when every cell holds one. *)
Fixpoint chars (cs : list cell) : option (list byte) :=
  match cs with
  | [] => Some []
  | Char b :: cs' =>
      match chars cs' with
      | Some bs => Some (b :: bs)
      | None => None
      end
  | _ :: _ => None
  end.

(** ** The connection *)

Section Connection.

Variable env : Environment.

(** *** [DataSize] *)

Definition DataSize_modulus : Z := 2 ^ (Z.of_nat (sizeof_DataSize env) * 8).

(** Conversion of a [size_t] to [DataSize].
    Modelled from the spec: the length is a fixed-width unsigned integer,
    so the conversion keeps the low [sizeof(DataSize)] bytes. *)
Definition to_DataSize (n : Z) : Z := n mod DataSize_modulus.

(** The bytes of a [DataSize] in memory, in the host's byte order. *)
Definition DataSize_bytes (n : Z) : list byte :=
  let le := le_split (sizeof_DataSize env) n in
  if big_endian env then rev le else le.

Definition DataSize_value (bs : list byte) : Z :=
  le_combine (if big_endian env then rev bs else bs).

(** [*reinterpret_cast<DataSize*>(buffer_.Data())], as a read. *)
Definition load_DataSize (b : list cell) : option Z :=
  match chars (firstn (sizeof_DataSize env) b) with
  | Some bs =>
      if Nat.eqb (length bs) (sizeof_DataSize env)
      then Some (DataSize_value bs) else None
  | None => None
  end.

(** The object representation of a [std::string] holding [s]. *)
Definition string_object (s : list byte) : list cell :=
  map (StringObject s) (seq 0 (sizeof_string env)).

(** *** Primitive operations on the members *)

(** [socket_.close()] *)
Definition socket_dot_close : M unit :=
  modify (set_socket false) ;; emit socket_close.

(** [socket_.async_connect(remote_endpoint_, handler)]: asio opens the
    socket when it is not open yet. *)
Definition socket_dot_async_connect (h : Handler) : M unit :=
  modify (set_socket true) ;; emit (socket_async_connect h).

(** [timer_.cancel()]: the pending wait, if any, is cancelled. *)
Definition timer_dot_cancel : M unit :=
  modify (fun c => set_timer {| expiry := expiry (timer_ c); pending_wait := false |} c) ;;
  emit timer_cancel.

(** [timer_.expires_from_now(t)]: sets the expiry; asio cancels the wait
    pending on the old one. *)
Definition timer_dot_expires_from_now (t : Timeout) : M unit :=
  modify (set_timer {| expiry := t; pending_wait := false |}) ;;
  emit (timer_expires_from_now t).

(** [timer_.async_wait(handler)] *)
Definition timer_dot_async_wait (h : Handler) : M unit :=
  modify (fun c => set_timer {| expiry := expiry (timer_ c); pending_wait := true |} c) ;;
  emit (timer_async_wait h).

(** [asio::async_read(socket_, asio::buffer(buffer_.Data(), buffer_.Size()), handler)] *)
Definition asio_async_read (h : Handler) : M unit :=
  c <- get ;; emit (async_read (Size (buffer_ c)) h).

(** [asio::async_write(socket_, asio::buffer(buffer_.Data(), buffer_.Size()), handler)] *)
Definition asio_async_write (h : Handler) : M unit :=
  c <- get ;; emit (async_write (buffer_ c) h).

(** [assert(cond)] *)
Definition assert (cond : bool) : M unit :=
  if NDEBUG env then ret tt
  else if cond then ret tt else halt assertion_failed.

(** *** The member functions, in the order of the source *)

Definition Close : M unit :=
  socket_dot_close ;;
  timer_dot_cancel ;;
  emit RemoveConnection.

Definition StartTimeout (timeout : Timeout) : M unit :=
  timer_dot_expires_from_now timeout ;;
  timer_dot_async_wait bind_HandleTimeout.

Definition StartReceiving : M unit :=
  modify (set_buffer (Allocate (Z.of_nat (sizeof_DataSize env)))) ;;
  asio_async_read bind_HandleSize ;;
  c <- get ;;
  StartTimeout (timeout_for_response_ c).

Definition HandleTimeout (ec : error_code) : M unit :=
  if is_set ec then ret tt
  else socket_dot_close.

Definition HandleSize (ec : error_code) : M unit :=
  c <- get ;;
  if negb (socket_ c) then
    emit (on_error kReceiveTimeout) ;; Close
  else if is_set ec then
    emit (on_error kReceiveFailure) ;; Close
  else
    match load_DataSize (buffer_ c) with
    | None => halt undefined_read
    | Some size =>
        modify (set_buffer (Allocate size)) ;;
        asio_async_read bind_HandleRead
    end.

(** The size test of [Send] compares the converted size with the
    maximum, taken as non-negative and so unchanged by its cast to
    [size_t].  The sum passed to [Allocate] is computed in [size_t].  The
    [DLOG] line writes a diagnostic only and is left out.

    Line 155 stores the length at the start of the buffer.  Line 156
    assigns [data] to a [std::string] object taken to lie behind the
    length: a store of [sizeof(std::string)] bytes into the [msg_size]
    bytes that are left, which fits only for a payload at least as long
    as the object. *)
Definition Send (data : list byte) (timeout : Timeout) (is_response : bool) : M unit :=
  let msg_size := to_DataSize (size data) in
  if kMaxTransportMessageSize env <? msg_size then
    emit (on_error kMessageSizeTooLarge)
  else
    modify (set_buffer (Allocate (msg_size + Z.of_nat (sizeof_DataSize env)))) ;;
    buffer_store 0 (map Char (DataSize_bytes msg_size)) ;;
    buffer_store (sizeof_DataSize env) (string_object data) ;;
    modify (set_timeout_for_response timeout) ;;
    if is_response then
      c <- get ;;
      assert (socket_ c) ;;
      StartTimeout (Z.max (scale_by_kTimeoutFactor env msg_size) (kMinTimeout env)) ;;
      asio_async_write bind_HandleWrite
    else
      c <- get ;;
      assert (negb (socket_ c)) ;;
      StartTimeout (kDefaultInitialTimeout env) ;;
      socket_dot_async_connect bind_HandleConnect.

Definition DispatchMessage (data : list byte) : M unit :=
  emit (on_message_received data) ;;
  let '(response, response_timeout) :=
    message_handler env data ([], kImmediateTimeout env) in
  if empty response then ret tt
  else Send response response_timeout true.

Definition HandleRead (ec : error_code) : M unit :=
  c <- get ;;
  if negb (socket_ c) then
    emit (on_error kReceiveTimeout) ;; Close
  else if is_set ec then
    emit (on_error kReceiveFailure) ;; Close
  else
    match chars (buffer_ c) with
    | None => halt undefined_read
    | Some data =>
        timer_dot_cancel ;;
        DispatchMessage data
    end.

Definition HandleConnect (ec : error_code) : M unit :=
  c <- get ;;
  if negb (socket_ c) then
    emit (on_error kSendTimeout) ;; Close
  else if is_set ec then
    emit (on_error kSendFailure) ;; Close
  else
    StartTimeout (Z.max (scale_by_kTimeoutFactor env (Size (buffer_ c))) (kMinTimeout env)) ;;
    asio_async_write bind_HandleWrite.

Definition HandleWrite (ec : error_code) : M unit :=
  c <- get ;;
  if negb (socket_ c) then
    emit (on_error kSendTimeout) ;; Close
  else if is_set ec then
    emit (on_error kSendFailure) ;; Close
  else if negb (Z.eqb (timeout_for_response_ c) (kImmediateTimeout env)) then
    StartReceiving
  else
    Close.

(** *** The reactor *)

(** The member function behind a bound handler. *)
Definition invoke (h : Handler) (ec : error_code) : M unit :=
  match h with
  | bind_HandleTimeout => HandleTimeout ec
  | bind_HandleSize => HandleSize ec
  | bind_HandleRead => HandleRead ec
  | bind_HandleConnect => HandleConnect ec
  | bind_HandleWrite => HandleWrite ec
  end.

(** The deadline passes: a pending wait completes without error.  With
    no wait pending there is nothing to run. *)
Definition timer_expires (c : TcpConnection)
  : option (list Effect * TcpConnection * result unit) :=
  if pending_wait (timer_ c) then
    Some (HandleTimeout success
            (set_timer {| expiry := expiry (timer_ c); pending_wait := false |} c))
  else None.

(** The read issued by [asio::async_read] completes: the next
    [buffer_.Size()] bytes of the stream have filled the buffer, and the
    rest of the stream is returned.  A stream that is too short leaves
    the read pending. *)
Definition read_completes (stream : list byte) (h : Handler) : M (list byte) :=
  c <- get ;;
  let n := length (buffer_ c) in
  if Nat.ltb (length stream) n then halt read_pending
  else
    modify (set_buffer (map Char (firstn n stream))) ;;
    invoke h success ;;
    ret (skipn n stream).

(** The receive path on a byte stream: the length, then the body. *)
Definition receive (stream : list byte) : M (list byte) :=
  StartReceiving ;;
  rest <- read_completes stream bind_HandleSize ;;
  read_completes rest bind_HandleRead.

End Connection.

(** ** Sample data for the examples

    A host with a four-byte, little-endian [DataSize], a [std::string]
    object of 32 bytes, a 64 MiB message limit, timeouts in milliseconds
    and a factor of 0.01 per byte. *)

Definition no_reply (data : list byte) (out : list byte * Timeout)
  : list byte * Timeout := out.

Definition replies_PONG (data : list byte) (out : list byte * Timeout)
  : list byte * Timeout :=
  ([Byte.x50; Byte.x4f; Byte.x4e; Byte.x47], 5000).

Definition host_limited (limit : Z)
    (handler : list byte -> list byte * Timeout -> list byte * Timeout)
  : Environment :=
  {| sizeof_DataSize := 4;
     big_endian := false;
     sizeof_string := 32;
     kMaxTransportMessageSize := limit;
     kDefaultInitialTimeout := 10000;
     kMinTimeout := 500;
     kImmediateTimeout := 0;
     scale_by_kTimeoutFactor := fun n => n / 100;
     NDEBUG := false;
     message_handler := handler |}.

Definition host := host_limited 67108864.

Definition PING : list byte := [Byte.x50; Byte.x49; Byte.x4e; Byte.x47].

(** Payloads of 40 bytes, of 59996 bytes, and of 4 GiB and 40 bytes. *)
Definition payload_40 : list byte := repeat Byte.x2e 40.

Definition payload_59996 : list byte := repeat Byte.x00 (Z.to_nat 59996).

Definition payload_4GiB_40 : list byte := repeat Byte.x00 (Z.to_nat 4294967336).

Definition replies_40_bytes (data : list byte) (out : list byte * Timeout)
  : list byte * Timeout :=
  (payload_40, 5000).

(** A connection as the constructor leaves it, and one whose socket has
    been accepted or connected. *)
Definition fresh (e : Environment) : TcpConnection :=
  {| socket_ := false;
     timer_ := {| expiry := 0; pending_wait := false |};
     buffer_ := [];
     timeout_for_response_ := kDefaultInitialTimeout e |}.

Definition connected (e : Environment) : TcpConnection := set_socket true (fresh e).

(** Counting what reached the owner's registry. *)
Definition is_RemoveConnection (e : Effect) : bool :=
  match e with RemoveConnection => true | _ => false end.

Definition removals (es : list Effect) : nat :=
  length (filter is_RemoveConnection es).

(** The error kind a completion handler of the read side and of the
    send side reports when the socket was closed under it, and when its
    operation failed.  [HandleTimeout] reports nothing; the classes are
    only used for the other four. *)
Definition timeout_class (h : Handler) : TransportCondition :=
  match h with
  | bind_HandleSize | bind_HandleRead => kReceiveTimeout
  | bind_HandleConnect | bind_HandleWrite | bind_HandleTimeout => kSendTimeout
  end.

Definition failure_class (h : Handler) : TransportCondition :=
  match h with
  | bind_HandleSize | bind_HandleRead => kReceiveFailure
  | bind_HandleConnect | bind_HandleWrite | bind_HandleTimeout => kSendFailure
  end.

(** What [Close] does to a connection. *)
Definition closed (c : TcpConnection) : TcpConnection :=
  {| socket_ := false;
     timer_ := {| expiry := expiry (timer_ c); pending_wait := false |};
     buffer_ := buffer_ c;
     timeout_for_response_ := timeout_for_response_ c |}.

(** The buffer of [Send] after line 155: the length field, then fresh
    storage for the payload. *)
Definition header (e : Environment) (data : list byte) : list cell :=
  let msg_size := to_DataSize e (size data) in
  store 0 (map Char (DataSize_bytes e msg_size))
    (Allocate (msg_size + Z.of_nat (sizeof_DataSize e))).

(** The buffer of [Send] after line 156, when the store of that line
    fits: the length field, then the [std::string] object. *)
Definition frame (e : Environment) (data : list byte) : list cell :=
  store (sizeof_DataSize e) (string_object e data) (header e data).

(** A well-formed frame on the wire: the length field of the payload,
    then the bytes of the payload. *)
Definition wire_frame (e : Environment) (data : list byte) : list byte :=
  DataSize_bytes e (size data) ++ data.

(** The deadline of a write of [n] bytes. *)
Definition write_deadline (e : Environment) (n : Z) : Timeout :=
  Z.max (scale_by_kTimeoutFactor e n) (kMinTimeout e).

(** Counting the asynchronous socket operations a run starts. *)
Definition is_socket_operation (e : Effect) : bool :=
  match e with
  | async_read _ _ | async_write _ _ | socket_async_connect _ => true
  | _ => false
  end.

Definition socket_operations (es : list Effect) : nat :=
  length (filter is_socket_operation es).

(** ** Properties *)

Section Properties.

Variable env : Environment.

(** Unfolds the member functions down to the monad's pairs. *)
Ltac run :=
  cbv [Close StartTimeout StartReceiving HandleTimeout HandleSize HandleRead
       HandleConnect HandleWrite DispatchMessage Send invoke assert
       socket_dot_close socket_dot_async_connect timer_dot_cancel
       timer_dot_expires_from_now timer_dot_async_wait asio_async_read
       asio_async_write buffer_store bind ret emit halt get modify effects
       state outcome
       set_socket set_timer set_buffer set_timeout_for_response closed
       fst snd app timer_ socket_ buffer_ timeout_for_response_
       expiry pending_wait].

(** *** The monad *)

Lemma bind_Ok {A B} (m : M A) (k : A -> M B) (c : TcpConnection)
    (e1 : list Effect) (c1 : TcpConnection) (a : A) :
  m c = (e1, c1, Ok a) ->
  bind m k c = (e1 ++ effects (k a c1), state (k a c1), outcome (k a c1)).
Proof.
  intros H. unfold bind. rewrite H.
  now destruct (k a c1) as [[e2 c2] o].
Qed.

Lemma bind_modify {B} (f : TcpConnection -> TcpConnection) (k : unit -> M B)
    (c : TcpConnection) :
  bind (modify f) k c = k tt (f c).
Proof. unfold bind, modify. now destruct (k tt (f c)) as [[e2 c2] o]. Qed.

Lemma bind_get {B} (k : TcpConnection -> M B) (c : TcpConnection) :
  bind get k c = k c c.
Proof. unfold bind, get. now destruct (k c c) as [[e2 c2] o]. Qed.

Lemma bind_Stop {A B} (m : M A) (k : A -> M B) (c c1 : TcpConnection)
    (e : list Effect) (s : stop) :
  m c = (e, c1, Stop s) -> bind m k c = (e, c1, Stop s).
Proof. intros H. unfold bind. now rewrite H. Qed.

Lemma bind_nil {A B} (m : M A) (k : A -> M B) (c c1 : TcpConnection) (a : A) :
  m c = ([], c1, Ok a) -> bind m k c = k a c1.
Proof.
  intros H. unfold bind. rewrite H.
  now destruct (k a c1) as [[e2 c2] o].
Qed.

(** *** The buffer and the length field *)

Lemma chars_map_Char (bs : list byte) : chars (map Char bs) = Some bs.
Proof.
  induction bs as [|b bs IH]; cbn [map chars]; [reflexivity|].
  now rewrite IH.
Qed.

Lemma Size_Allocate (n : Z) : 0 <= n -> Size (Allocate n) = n.
Proof.
  intros Hn. unfold Size, Allocate.
  rewrite repeat_length. apply Z2Nat.id, Hn.
Qed.

Lemma length_store (off : nat) (new b : list cell) :
  (off + length new <= length b)%nat -> length (store off new b) = length b.
Proof.
  intros H. unfold store.
  rewrite !length_app, length_firstn, length_skipn. lia.
Qed.

Lemma buffer_store_fits (off : nat) (new : list cell) (c : TcpConnection) :
  (off + length new <= length (buffer_ c))%nat ->
  buffer_store off new c = ([], set_buffer (store off new (buffer_ c)) c, Ok tt).
Proof.
  intros H. apply Nat.leb_le in H. unfold buffer_store.
  rewrite (bind_nil get _ c c c eq_refl). now rewrite H.
Qed.

Lemma buffer_store_overruns (off : nat) (new : list cell) (c : TcpConnection) :
  (length (buffer_ c) < off + length new)%nat ->
  buffer_store off new c = ([], c, Stop store_out_of_bounds).
Proof.
  intros H. apply Nat.leb_gt in H. unfold buffer_store.
  rewrite (bind_nil get _ c c c eq_refl). now rewrite H.
Qed.

Lemma length_DataSize_bytes (n : Z) : length (DataSize_bytes env n) = sizeof_DataSize env.
Proof.
  unfold DataSize_bytes.
  destruct (big_endian env); [rewrite length_rev|]; apply length_le_split.
Qed.

Lemma DataSize_value_bytes (n : Z) :
  DataSize_value env (DataSize_bytes env n) = to_DataSize env n.
Proof.
  unfold DataSize_value, DataSize_bytes, to_DataSize, DataSize_modulus.
  destruct (big_endian env); [rewrite rev_involutive|]; apply le_combine_split.
Qed.

Lemma DataSize_value_range (bs : list byte) :
  length bs = sizeof_DataSize env ->
  0 <= DataSize_value env bs < DataSize_modulus env.
Proof.
  intros H. unfold DataSize_value, DataSize_modulus.
  pose proof (le_combine_bound (if big_endian env then rev bs else bs)) as B.
  replace (length (if big_endian env then rev bs else bs))
    with (sizeof_DataSize env) in B.
  - now rewrite (Z.mul_comm (Z.of_nat (sizeof_DataSize env)) 8).
  - destruct (big_endian env); [rewrite length_rev|]; now rewrite H.
Qed.

Lemma to_DataSize_small (n : Z) :
  0 <= n < DataSize_modulus env -> to_DataSize env n = n.
Proof. intros H. unfold to_DataSize. now apply Z.mod_small. Qed.

Lemma load_DataSize_chars (bs : list byte) (rest : list cell) :
  length bs = sizeof_DataSize env ->
  load_DataSize env (map Char bs ++ rest) = Some (DataSize_value env bs).
Proof.
  intros H. unfold load_DataSize.
  rewrite firstn_app, length_map, H, Nat.sub_diag, firstn_O, app_nil_r.
  rewrite <- H at 1. rewrite <- (length_map Char bs), firstn_all.
  now rewrite chars_map_Char, H, Nat.eqb_refl.
Qed.

(** *** Close and the timer *)

Lemma Close_run (c : TcpConnection) :
  Close c = ([socket_close; timer_cancel; RemoveConnection], closed c, Ok tt).
Proof. reflexivity. Qed.

Lemma closed_idempotent (c : TcpConnection) : closed (closed c) = closed c.
Proof. reflexivity. Qed.

Lemma StartTimeout_run (t : Timeout) (c : TcpConnection) :
  StartTimeout t c =
  ([timer_expires_from_now t; timer_async_wait bind_HandleTimeout],
   set_timer {| expiry := t; pending_wait := true |} c, Ok tt).
Proof. reflexivity. Qed.

(** C3, as the code has it.  Two calls of [Close] in a row leave the
    connection as one call does (socket closed, no wait pending on the
    timer), but the second call is not a no-op: every call closes the
    socket, cancels the timer and calls the owner's [RemoveConnection],
    so two calls make two registry-removal notifications. *)
Theorem Close_twice_same_state_two_removals (c : TcpConnection) :
  state ((Close ;; Close) c) = state (Close c)
  /\ socket_ (state (Close c)) = false
  /\ pending_wait (timer_ (state (Close c))) = false
  /\ effects ((Close ;; Close) c) = effects (Close c) ++ effects (Close (state (Close c)))
  /\ removals (effects (Close (state (Close c)))) = 1%nat
  /\ removals (effects ((Close ;; Close) c)) = 2%nat.
Proof. repeat split. Qed.

(** C9.  On expiry (no error code) [HandleTimeout] closes the socket and
    does nothing else: the timer, the buffer and the response timeout
    are untouched and the owner's [RemoveConnection] is not called.  With
    an error code set (the wait was cancelled) it does nothing at all.
    [StartTimeout] leaves the timer with the new expiry and one wait
    pending, whatever was armed before. *)
Theorem HandleTimeout_closes_only_the_socket
    (c : TcpConnection) (ec : error_code) (t : Timeout) :
  HandleTimeout ec c =
    (if is_set ec then ([], c, Ok tt)
     else ([socket_close], set_socket false c, Ok tt))
  /\ removals (effects (HandleTimeout ec c)) = 0%nat
  /\ timer_ (state (HandleTimeout ec c)) = timer_ c
  /\ timer_ (state (StartTimeout t c)) = {| expiry := t; pending_wait := true |}
  /\ effects (StartTimeout t c) =
       [timer_expires_from_now t; timer_async_wait bind_HandleTimeout].
Proof.
  repeat split; destruct ec; reflexivity.
Qed.

(** *** Send *)

Lemma Send_rejected (data : list byte) (timeout : Timeout) (is_response : bool)
    (c : TcpConnection) :
  kMaxTransportMessageSize env < to_DataSize env (size data) ->
  Send env data timeout is_response c = ([on_error kMessageSizeTooLarge], c, Ok tt).
Proof.
  intros H. apply Z.ltb_lt in H. unfold Send. now rewrite H.
Qed.

Lemma bind_buffer_store {B} (off : nat) (new : list cell) (k : unit -> M B)
    (c : TcpConnection) :
  (off + length new <= length (buffer_ c))%nat ->
  bind (buffer_store off new) k c
  = k tt (set_buffer (store off new (buffer_ c)) c).
Proof.
  intros H. apply (bind_nil _ _ _ _ tt). now apply buffer_store_fits.
Qed.

Lemma to_DataSize_nonneg (n : Z) : 0 <= to_DataSize env n.
Proof.
  unfold to_DataSize, DataSize_modulus.
  apply Z.mod_pos_bound, Z.pow_pos_nonneg; lia.
Qed.

Lemma length_string_object (data : list byte) :
  length (string_object env data) = sizeof_string env.
Proof. unfold string_object. now rewrite length_map, length_seq. Qed.

Lemma length_header (data : list byte) :
  length (header env data)
  = Z.to_nat (to_DataSize env (size data) + Z.of_nat (sizeof_DataSize env)).
Proof.
  pose proof (to_DataSize_nonneg (size data)) as Hm.
  unfold header. cbv zeta. rewrite length_store.
  - unfold Allocate. apply repeat_length.
  - unfold Allocate. rewrite repeat_length, length_map, length_DataSize_bytes. lia.
Qed.

(** [Send] up to line 155: the buffer is allocated and the length
    stored, which always fits. *)
Lemma Send_up_to_the_length (data : list byte) (timeout : Timeout)
    (is_response : bool) (c : TcpConnection) :
  to_DataSize env (size data) <= kMaxTransportMessageSize env ->
  Send env data timeout is_response c =
  (buffer_store (sizeof_DataSize env) (string_object env data) ;;
   modify (set_timeout_for_response timeout) ;;
   if is_response then
     c' <- get ;;
     assert env (socket_ c') ;;
     StartTimeout (write_deadline env (to_DataSize env (size data))) ;;
     asio_async_write bind_HandleWrite
   else
     c' <- get ;;
     assert env (negb (socket_ c')) ;;
     StartTimeout (kDefaultInitialTimeout env) ;;
     socket_dot_async_connect bind_HandleConnect)
    (set_buffer (header env data) c).
Proof.
  intros H. apply Z.ltb_ge in H.
  pose proof (to_DataSize_nonneg (size data)) as Hm.
  unfold Send. rewrite H, bind_modify.
  rewrite bind_buffer_store
    by (cbn [set_buffer buffer_]; unfold Allocate;
        rewrite repeat_length, length_map, length_DataSize_bytes; lia).
  reflexivity.
Qed.

(** [Send] stops at line 156 when the object does not fit behind the
    length. *)
Lemma Send_store_overruns (data : list byte) (timeout : Timeout)
    (is_response : bool) (c : TcpConnection) :
  to_DataSize env (size data) <= kMaxTransportMessageSize env ->
  to_DataSize env (size data) < Z.of_nat (sizeof_string env) ->
  Send env data timeout is_response c
  = ([], set_buffer (header env data) c, Stop store_out_of_bounds).
Proof.
  intros H F. pose proof (to_DataSize_nonneg (size data)) as Hm.
  rewrite (Send_up_to_the_length _ _ _ _ H).
  apply bind_Stop, buffer_store_overruns.
  cbn [set_buffer buffer_]. rewrite length_header, length_string_object. lia.
Qed.

(** [Send] up to line 159 when the object fits. *)
Lemma Send_serializes (data : list byte) (timeout : Timeout)
    (is_response : bool) (c : TcpConnection) :
  to_DataSize env (size data) <= kMaxTransportMessageSize env ->
  Z.of_nat (sizeof_string env) <= to_DataSize env (size data) ->
  Send env data timeout is_response c =
  (if is_response then
     c' <- get ;;
     assert env (socket_ c') ;;
     StartTimeout (write_deadline env (to_DataSize env (size data))) ;;
     asio_async_write bind_HandleWrite
   else
     c' <- get ;;
     assert env (negb (socket_ c')) ;;
     StartTimeout (kDefaultInitialTimeout env) ;;
     socket_dot_async_connect bind_HandleConnect)
    {| socket_ := socket_ c; timer_ := timer_ c;
       buffer_ := frame env data; timeout_for_response_ := timeout |}.
Proof.
  intros H F. pose proof (to_DataSize_nonneg (size data)) as Hm.
  rewrite (Send_up_to_the_length _ _ _ _ H).
  rewrite bind_buffer_store
    by (cbn [set_buffer buffer_];
        rewrite length_header, length_string_object; lia).
  rewrite bind_modify. reflexivity.
Qed.

Lemma Send_response_accepted (data : list byte) (timeout : Timeout)
    (c : TcpConnection) :
  to_DataSize env (size data) <= kMaxTransportMessageSize env ->
  Z.of_nat (sizeof_string env) <= to_DataSize env (size data) ->
  NDEBUG env || socket_ c = true ->
  Send env data timeout true c =
  ([timer_expires_from_now (write_deadline env (to_DataSize env (size data)));
    timer_async_wait bind_HandleTimeout;
    async_write (frame env data) bind_HandleWrite],
   {| socket_ := socket_ c;
      timer_ := {| expiry := write_deadline env (to_DataSize env (size data));
                   pending_wait := true |};
      buffer_ := frame env data;
      timeout_for_response_ := timeout |},
   Ok tt).
Proof.
  intros H F A. rewrite (Send_serializes _ _ _ _ H F). unfold assert.
  destruct c as [s t b r]. cbn [socket_] in A.
  destruct (NDEBUG env); [reflexivity|].
  cbn [orb] in A. subst s. reflexivity.
Qed.

Lemma Send_request_accepted (data : list byte) (timeout : Timeout)
    (c : TcpConnection) :
  to_DataSize env (size data) <= kMaxTransportMessageSize env ->
  Z.of_nat (sizeof_string env) <= to_DataSize env (size data) ->
  NDEBUG env || negb (socket_ c) = true ->
  Send env data timeout false c =
  ([timer_expires_from_now (kDefaultInitialTimeout env);
    timer_async_wait bind_HandleTimeout;
    socket_async_connect bind_HandleConnect],
   {| socket_ := true;
      timer_ := {| expiry := kDefaultInitialTimeout env; pending_wait := true |};
      buffer_ := frame env data;
      timeout_for_response_ := timeout |},
   Ok tt).
Proof.
  intros H F A. rewrite (Send_serializes _ _ _ _ H F). unfold assert.
  destruct c as [s t b r]. cbn [socket_] in A.
  destruct (NDEBUG env); [reflexivity|].
  cbn [orb] in A. apply negb_true_iff in A. subst s. reflexivity.
Qed.

Lemma Send_assert_fails (data : list byte) (timeout : Timeout)
    (is_response : bool) (c : TcpConnection) :
  to_DataSize env (size data) <= kMaxTransportMessageSize env ->
  Z.of_nat (sizeof_string env) <= to_DataSize env (size data) ->
  NDEBUG env = false -> socket_ c = negb is_response ->
  Send env data timeout is_response c =
  ([], {| socket_ := socket_ c; timer_ := timer_ c;
          buffer_ := frame env data; timeout_for_response_ := timeout |},
   Stop assertion_failed).
Proof.
  intros H F Hn Hs. rewrite (Send_serializes _ _ _ _ H F). unfold assert.
  rewrite Hn. destruct c as [s t b r]. cbn [socket_] in Hs. subst s.
  now destruct is_response.
Qed.

Lemma Size_frame (data : list byte) :
  Z.of_nat (sizeof_string env) <= to_DataSize env (size data) ->
  Size (frame env data) =
  to_DataSize env (size data) + Z.of_nat (sizeof_DataSize env).
Proof.
  intros F. pose proof (to_DataSize_nonneg (size data)) as Hm.
  unfold frame, Size. rewrite length_store, length_header; [lia|].
  rewrite length_header, length_string_object. lia.
Qed.

(** Every run of [Send] is one of five: the size test rejects the
    payload; the store of line 156 overruns the buffer; an assert stops
    it once the buffer and the response timeout are written; the
    response path arms the write deadline and writes; the request path
    arms the connect deadline and connects. *)
Lemma Send_cases (data : list byte) (timeout : Timeout) (is_response : bool)
    (c : TcpConnection) :
  let filled := {| socket_ := socket_ c; timer_ := timer_ c;
                   buffer_ := frame env data;
                   timeout_for_response_ := timeout |} in
  (kMaxTransportMessageSize env < to_DataSize env (size data)
   /\ Send env data timeout is_response c
      = ([on_error kMessageSizeTooLarge], c, Ok tt))
  \/ (to_DataSize env (size data) <= kMaxTransportMessageSize env
      /\ to_DataSize env (size data) < Z.of_nat (sizeof_string env)
      /\ Send env data timeout is_response c
         = ([], set_buffer (header env data) c, Stop store_out_of_bounds))
  \/ (to_DataSize env (size data) <= kMaxTransportMessageSize env
      /\ NDEBUG env = false /\ socket_ c = negb is_response
      /\ Send env data timeout is_response c = ([], filled, Stop assertion_failed))
  \/ (to_DataSize env (size data) <= kMaxTransportMessageSize env
      /\ is_response = true
      /\ Send env data timeout is_response c
         = ([timer_expires_from_now (write_deadline env (to_DataSize env (size data)));
             timer_async_wait bind_HandleTimeout;
             async_write (frame env data) bind_HandleWrite],
            set_timer {| expiry := write_deadline env (to_DataSize env (size data));
                         pending_wait := true |} filled,
            Ok tt))
  \/ (to_DataSize env (size data) <= kMaxTransportMessageSize env
      /\ is_response = false
      /\ Send env data timeout is_response c
         = ([timer_expires_from_now (kDefaultInitialTimeout env);
             timer_async_wait bind_HandleTimeout;
             socket_async_connect bind_HandleConnect],
            set_socket true
              (set_timer {| expiry := kDefaultInitialTimeout env;
                            pending_wait := true |} filled),
            Ok tt)).
Proof.
  intros filled.
  destruct (Z.ltb_spec (kMaxTransportMessageSize env) (to_DataSize env (size data)))
    as [Hbig|Hok].
  { left. split; [exact Hbig|]. now apply Send_rejected. }
  right.
  destruct (Z.ltb_spec (to_DataSize env (size data)) (Z.of_nat (sizeof_string env)))
    as [Hshort|Hfit].
  { left. split; [exact Hok|]. split; [exact Hshort|].
    now apply Send_store_overruns. }
  right.
  destruct is_response.
  - destruct (NDEBUG env || socket_ c) eqn:A.
    + right. left. split; [exact Hok|]. split; [reflexivity|].
      now rewrite (Send_response_accepted _ _ _ Hok Hfit A).
    + left. apply orb_false_iff in A. destruct A as [A1 A2].
      split; [exact Hok|]. split; [exact A1|]. split; [exact A2|].
      now apply Send_assert_fails.
  - destruct (NDEBUG env || negb (socket_ c)) eqn:A.
    + right. right. split; [exact Hok|]. split; [reflexivity|].
      now rewrite (Send_request_accepted _ _ _ Hok Hfit A).
    + left. apply orb_false_iff in A. destruct A as [A1 A2].
      apply negb_false_iff in A2.
      split; [exact Hok|]. split; [exact A1|]. split; [exact A2|].
      now apply Send_assert_fails.
Qed.

Lemma Send_arms_what_is_pending (data : list byte) (timeout : Timeout)
    (is_response : bool) (c : TcpConnection) :
  pending_wait (timer_ c) = false ->
  pending_wait (timer_ (state (Send env data timeout is_response c))) = true ->
  In (timer_async_wait bind_HandleTimeout)
     (effects (Send env data timeout is_response c)).
Proof.
  intros Hc.
  destruct (Send_cases data timeout is_response c)
    as [(_ & E)|[(_ & _ & E)|[(_ & _ & _ & E)|[(_ & _ & E)|(_ & _ & E)]]]];
    rewrite E; cbn [state effects fst snd set_buffer timer_];
    solve [congruence | intros _; right; left; reflexivity].
Qed.

(** *** The completion handlers *)

Lemma HandleConnect_proceeds (ec : error_code) (c : TcpConnection) :
  socket_ c = true -> is_set ec = false ->
  HandleConnect env ec c =
  ([timer_expires_from_now (write_deadline env (Size (buffer_ c)));
    timer_async_wait bind_HandleTimeout;
    async_write (buffer_ c) bind_HandleWrite],
   set_timer {| expiry := write_deadline env (Size (buffer_ c));
                pending_wait := true |} c,
   Ok tt).
Proof.
  intros Hs He. destruct c as [s t b r]. cbn [socket_] in Hs. subst s.
  unfold HandleConnect. run. now rewrite He.
Qed.

Lemma HandleWrite_proceeds (ec : error_code) (c : TcpConnection) :
  socket_ c = true -> is_set ec = false ->
  HandleWrite env ec c =
  if Z.eqb (timeout_for_response_ c) (kImmediateTimeout env)
  then Close c else StartReceiving env c.
Proof.
  intros Hs He. destruct c as [s t b r]. cbn [socket_] in Hs. subst s.
  unfold HandleWrite. run. rewrite He.
  now destruct (r =? kImmediateTimeout env).
Qed.

Lemma StartReceiving_run (c : TcpConnection) :
  StartReceiving env c =
  ([async_read (Size (Allocate (Z.of_nat (sizeof_DataSize env)))) bind_HandleSize;
    timer_expires_from_now (timeout_for_response_ c);
    timer_async_wait bind_HandleTimeout],
   {| socket_ := socket_ c;
      timer_ := {| expiry := timeout_for_response_ c; pending_wait := true |};
      buffer_ := Allocate (Z.of_nat (sizeof_DataSize env));
      timeout_for_response_ := timeout_for_response_ c |},
   Ok tt).
Proof. reflexivity. Qed.

Lemma HandleSize_proceeds (ec : error_code) (c : TcpConnection) (n : Z) :
  socket_ c = true -> is_set ec = false ->
  load_DataSize env (buffer_ c) = Some n ->
  HandleSize env ec c =
  ([async_read (Size (Allocate n)) bind_HandleRead],
   set_buffer (Allocate n) c, Ok tt).
Proof.
  intros Hs He Hl. destruct c as [s t b r]. cbn [socket_ buffer_] in Hs, Hl.
  subst s. unfold HandleSize. run. now rewrite He, Hl.
Qed.

Lemma HandleRead_proceeds (ec : error_code) (c : TcpConnection) (data : list byte) :
  socket_ c = true -> is_set ec = false ->
  chars (buffer_ c) = Some data ->
  HandleRead env ec c = (timer_dot_cancel ;; DispatchMessage env data) c.
Proof.
  intros Hs He Hl. destruct c as [s t b r]. cbn [socket_ buffer_] in Hs, Hl.
  subst s. unfold HandleRead at 1. unfold bind at 1, get.
  cbn [socket_ negb buffer_ app]. rewrite He, Hl.
  now destruct ((timer_dot_cancel ;; DispatchMessage env data) _) as [[e c'] o].
Qed.

Lemma handler_socket_closed (h : Handler) (ec : error_code) (c : TcpConnection) :
  h <> bind_HandleTimeout -> socket_ c = false ->
  invoke env h ec c =
  ([on_error (timeout_class h); socket_close; timer_cancel; RemoveConnection],
   closed c, Ok tt).
Proof.
  intros Hh Hs. destruct c as [s t b r]. cbn [socket_] in Hs. subst s.
  destruct h; try congruence; reflexivity.
Qed.

Lemma handler_operation_failed (h : Handler) (ec : error_code) (c : TcpConnection) :
  h <> bind_HandleTimeout -> socket_ c = true -> is_set ec = true ->
  invoke env h ec c =
  ([on_error (failure_class h); socket_close; timer_cancel; RemoveConnection],
   closed c, Ok tt).
Proof.
  intros Hh Hs He. destruct c as [s t b r]. cbn [socket_] in Hs. subst s.
  destruct h; try congruence;
    cbv [invoke HandleSize HandleRead HandleConnect HandleWrite];
    run; rewrite He; reflexivity.
Qed.

Lemma DispatchMessage_run (data : list byte) (c : TcpConnection) :
  DispatchMessage env data c =
  let out := message_handler env data ([], kImmediateTimeout env) in
  if empty (fst out) then ([on_message_received data], c, Ok tt)
  else (on_message_received data :: effects (Send env (fst out) (snd out) true c),
        state (Send env (fst out) (snd out) true c),
        outcome (Send env (fst out) (snd out) true c)).
Proof.
  unfold DispatchMessage.
  destruct (message_handler env data ([], kImmediateTimeout env)) as [response rt].
  cbn [fst snd]. destruct (empty response); [reflexivity|].
  unfold bind, emit, effects, state, outcome.
  now destruct (Send env response rt true c) as [[e c'] o].
Qed.

(** C5.  The four completion handlers decide in the same order.  With
    the socket no longer open the handler reports its timeout-class error
    ([kReceiveTimeout] for [HandleSize] and [HandleRead], [kSendTimeout]
    for [HandleConnect] and [HandleWrite]) and runs [Close], whatever the
    error code.  With the socket open and the error code set it reports
    its failure-class error ([kReceiveFailure], [kSendFailure]) and runs
    [Close].  With the socket open and no error it goes on to its next
    phase: [HandleConnect] arms the write deadline and writes the buffer,
    [HandleWrite] starts receiving or closes, [HandleSize] reallocates
    the buffer to the length it holds and reads the body, [HandleRead]
    cancels the timer and dispatches the payload. *)
Theorem completion_handlers_check_socket_then_error
    (h : Handler) (ec : error_code) (c : TcpConnection) :
  In h [bind_HandleConnect; bind_HandleWrite; bind_HandleSize; bind_HandleRead] ->
  (socket_ c = false ->
     invoke env h ec c =
     ([on_error (timeout_class h); socket_close; timer_cancel; RemoveConnection],
      closed c, Ok tt))
  /\ (socket_ c = true -> is_set ec = true ->
     invoke env h ec c =
     ([on_error (failure_class h); socket_close; timer_cancel; RemoveConnection],
      closed c, Ok tt))
  /\ (socket_ c = true -> is_set ec = false ->
     match h with
     | bind_HandleConnect =>
         HandleConnect env ec c =
         (StartTimeout (write_deadline env (Size (buffer_ c))) ;;
          asio_async_write bind_HandleWrite) c
     | bind_HandleWrite =>
         HandleWrite env ec c =
         if Z.eqb (timeout_for_response_ c) (kImmediateTimeout env)
         then Close c else StartReceiving env c
     | bind_HandleSize =>
         forall n, load_DataSize env (buffer_ c) = Some n ->
         HandleSize env ec c =
         ([async_read (Size (Allocate n)) bind_HandleRead],
          set_buffer (Allocate n) c, Ok tt)
     | bind_HandleRead =>
         forall data, chars (buffer_ c) = Some data ->
         HandleRead env ec c = (timer_dot_cancel ;; DispatchMessage env data) c
     | bind_HandleTimeout => True
     end).
Proof.
  intros Hin.
  assert (h <> bind_HandleTimeout) as Hh.
  { intros ->. cbn in Hin. intuition discriminate. }
  split; [|split].
  - intros Hs. now apply handler_socket_closed.
  - intros Hs He. now apply handler_operation_failed.
  - intros Hs He. destruct h; try exact I.
    + intros n Hn. now apply HandleSize_proceeds.
    + intros data Hd. now apply HandleRead_proceeds.
    + now rewrite HandleConnect_proceeds.
    + now apply HandleWrite_proceeds.
Qed.

(** C7.  After a write that completed with the socket open and no
    error, [HandleWrite] starts receiving exactly when the recorded
    response timeout differs from [kImmediateTimeout]: it then issues the
    read of the length field and neither closes the socket nor calls
    [RemoveConnection].  When the recorded timeout is the sentinel it
    runs [Close] and issues no read. *)
Theorem HandleWrite_receives_iff_response_expected
    (ec : error_code) (c : TcpConnection) :
  socket_ c = true -> is_set ec = false ->
  let r := HandleWrite env ec c in
  (timeout_for_response_ c <> kImmediateTimeout env ->
     r = StartReceiving env c
     /\ In (async_read (Z.of_nat (sizeof_DataSize env)) bind_HandleSize) (effects r)
     /\ removals (effects r) = 0%nat
     /\ socket_ (state r) = true)
  /\ (timeout_for_response_ c = kImmediateTimeout env ->
     r = Close c
     /\ (forall n h, ~ In (async_read n h) (effects r))
     /\ removals (effects r) = 1%nat
     /\ socket_ (state r) = false)
  /\ ((exists n h, In (async_read n h) (effects r))
      <-> timeout_for_response_ c <> kImmediateTimeout env).
Proof.
  intros Hs He r. subst r. rewrite (HandleWrite_proceeds _ _ Hs He).
  assert (Size (Allocate (Z.of_nat (sizeof_DataSize env)))
          = Z.of_nat (sizeof_DataSize env)) as HS
    by (apply Size_Allocate; lia).
  destruct (Z.eqb_spec (timeout_for_response_ c) (kImmediateTimeout env)) as [E|E].
  - split; [congruence|]. split.
    + intros _. rewrite Close_run. cbn [effects state fst snd closed socket_].
      repeat split. intros n h [H|[H|[H|[]]]]; discriminate H.
    + split; [|congruence]. intros (n & h & H). rewrite Close_run in H.
      destruct H as [H|[H|[H|[]]]]; discriminate H.
  - rewrite StartReceiving_run, HS. cbn [effects state fst snd socket_].
    split; [|split].
    + intros _. repeat split; [now left | exact Hs].
    + congruence.
    + split; [intros _; exact E|].
      intros _. exists (Z.of_nat (sizeof_DataSize env)), bind_HandleSize. now left.
Qed.

(** C8.  When the body read completes with the socket open and no
    error, [HandleRead] cancels the timer first and dispatches second.
    After the cancel no wait is pending, so the deadline of the read
    cannot expire any more; the handler of the cancelled wait runs with
    [operation_aborted] and does nothing.  A wait that is pending when
    [HandleRead] returns was armed after the dispatch, for the write of
    the reply. *)
Theorem HandleRead_cancels_deadline_before_dispatch
    (ec : error_code) (c : TcpConnection) (data : list byte) :
  socket_ c = true -> is_set ec = false ->
  chars (buffer_ c) = Some data ->
  let cancelled := state (timer_dot_cancel c) in
  let r := HandleRead env ec c in
  r = (timer_dot_cancel ;; DispatchMessage env data) c
  /\ (exists rest,
        effects r = timer_cancel :: on_message_received data :: rest
        /\ (pending_wait (timer_ (state r)) = true ->
            In (timer_async_wait bind_HandleTimeout) rest))
  /\ pending_wait (timer_ cancelled) = false
  /\ timer_expires cancelled = None
  /\ HandleTimeout operation_aborted (state r) = ([], state r, Ok tt).
Proof.
  intros Hs He Hd cancelled r. subst r.
  rewrite (HandleRead_proceeds _ _ _ Hs He Hd).
  split; [reflexivity|]. split; [|repeat split].
  rewrite (bind_Ok timer_dot_cancel (fun _ => DispatchMessage env data) c
             [timer_cancel] cancelled tt eq_refl).
  rewrite DispatchMessage_run. cbv zeta.
  set (out := message_handler env data ([], kImmediateTimeout env)).
  destruct (empty (fst out)).
  - exists []. cbn. split; [reflexivity|congruence].
  - exists (effects (Send env (fst out) (snd out) true cancelled)).
    cbn [effects state fst snd app]. split; [reflexivity|].
    now apply Send_arms_what_is_pending.
Qed.

(** C10.  [HandleSize] does not compare the length it received with the
    maximum message size.  Whatever value [n] the length field holds,
    once the read completed with the socket open and no error the buffer
    is reallocated to exactly [n] bytes and a read of [n] bytes is
    issued; no error is reported.  [kMaxTransportMessageSize] plays no
    part. *)
Theorem HandleSize_trusts_the_received_length
    (ec : error_code) (c : TcpConnection) (n : Z) :
  socket_ c = true -> is_set ec = false ->
  0 <= n < DataSize_modulus env ->
  buffer_ c = map Char (DataSize_bytes env n) ->
  HandleSize env ec c =
    ([async_read n bind_HandleRead], set_buffer (Allocate n) c, Ok tt)
  /\ Size (buffer_ (state (HandleSize env ec c))) = n
  /\ (forall e, ~ In (on_error e) (effects (HandleSize env ec c))).
Proof.
  intros Hs He Hn Hb.
  assert (load_DataSize env (buffer_ c) = Some n) as Hl.
  { rewrite Hb, <- (app_nil_r (map Char _)).
    rewrite load_DataSize_chars by apply length_DataSize_bytes.
    now rewrite DataSize_value_bytes, to_DataSize_small. }
  rewrite (HandleSize_proceeds _ _ _ Hs He Hl).
  rewrite Size_Allocate by lia.
  cbn [effects state fst snd set_buffer buffer_].
  repeat split.
  - apply Size_Allocate. lia.
  - intros e [H|[]]. discriminate H.
Qed.

(** C2, evaluated on the code.  When the application's handler leaves
    the reply empty, [DispatchMessage] calls the handler and returns: it
    sends nothing, and it does not run [Close] either.  The connection
    object is left as it was, so after a successful body read the socket
    is still open and the owner's [RemoveConnection] has not been
    called. *)
Theorem DispatchMessage_empty_reply_returns_without_Close
    (data : list byte) (ec : error_code) (c : TcpConnection) :
  empty (fst (message_handler env data ([], kImmediateTimeout env))) = true ->
  DispatchMessage env data c = ([on_message_received data], c, Ok tt)
  /\ removals (effects (DispatchMessage env data c)) = 0%nat
  /\ (socket_ c = true -> is_set ec = false -> chars (buffer_ c) = Some data ->
      effects (HandleRead env ec c) = [timer_cancel; on_message_received data]
      /\ socket_ (state (HandleRead env ec c)) = true
      /\ removals (effects (HandleRead env ec c)) = 0%nat).
Proof.
  intros Hempty.
  assert (forall c', DispatchMessage env data c'
                     = ([on_message_received data], c', Ok tt)) as D.
  { intros c'. rewrite DispatchMessage_run. cbv zeta. now rewrite Hempty. }
  split; [apply D|]. split; [now rewrite D|].
  intros Hs He Hd. rewrite (HandleRead_proceeds _ _ _ Hs He Hd).
  rewrite (bind_Ok timer_dot_cancel (fun _ => DispatchMessage env data) c
             [timer_cancel] (state (timer_dot_cancel c)) tt eq_refl).
  rewrite D. cbn [effects state fst snd app]. repeat split.
  destruct c as [s t b r]. exact Hs.
Qed.

Lemma HandleConnect_after_request
    (data : list byte) (timeout : Timeout) (ec : error_code) (c : TcpConnection) :
  to_DataSize env (size data) <= kMaxTransportMessageSize env ->
  Z.of_nat (sizeof_string env) <= to_DataSize env (size data) ->
  NDEBUG env || negb (socket_ c) = true -> is_set ec = false ->
  HandleConnect env ec (state (Send env data timeout false c)) =
  ([timer_expires_from_now
      (write_deadline env
         (to_DataSize env (size data) + Z.of_nat (sizeof_DataSize env)));
    timer_async_wait bind_HandleTimeout;
    async_write (frame env data) bind_HandleWrite],
   {| socket_ := true;
      timer_ := {| expiry := write_deadline env
                     (to_DataSize env (size data) + Z.of_nat (sizeof_DataSize env));
                   pending_wait := true |};
      buffer_ := frame env data;
      timeout_for_response_ := timeout |},
   Ok tt).
Proof.
  intros Hacc Hfit Ha He.
  rewrite (Send_request_accepted _ _ _ Hacc Hfit Ha). cbn [state fst snd].
  rewrite HandleConnect_proceeds by (exact He || reflexivity).
  cbn [buffer_ set_timer socket_ timeout_for_response_].
  now rewrite Size_frame.
Qed.

Lemma size_repeat (b : byte) (n : Z) :
  0 <= n -> size (repeat b (Z.to_nat n)) = n.
Proof.
  intros H. unfold size. rewrite repeat_length. now apply Z2Nat.id.
Qed.

(** C6, evaluated on the code.  For a payload within the maximum
    message size that the store of line 156 has room for, the deadline
    armed for the write is the larger of the scaled byte count and
    [kMinTimeout].  On the response path of [Send] the byte count is the
    payload size, as the claim says.  In [HandleConnect], after a request
    and a successful connect, it is [buffer_.Size()]: the payload size
    plus the width of the length field. *)
Theorem write_deadline_of_each_path
    (data : list byte) (timeout : Timeout) (ec : error_code) (c : TcpConnection) :
  size data <= kMaxTransportMessageSize env ->
  kMaxTransportMessageSize env < DataSize_modulus env ->
  Z.of_nat (sizeof_string env) <= size data ->
  (NDEBUG env || socket_ c = true ->
     let r := Send env data timeout true c in
     effects r =
       [timer_expires_from_now (write_deadline env (size data));
        timer_async_wait bind_HandleTimeout;
        async_write (frame env data) bind_HandleWrite]
     /\ timer_ (state r) =
          {| expiry := write_deadline env (size data); pending_wait := true |})
  /\ (NDEBUG env || negb (socket_ c) = true -> is_set ec = false ->
     let r := HandleConnect env ec (state (Send env data timeout false c)) in
     effects r =
       [timer_expires_from_now
          (write_deadline env (size data + Z.of_nat (sizeof_DataSize env)));
        timer_async_wait bind_HandleTimeout;
        async_write (frame env data) bind_HandleWrite]
     /\ timer_ (state r) =
          {| expiry := write_deadline env (size data + Z.of_nat (sizeof_DataSize env));
             pending_wait := true |}).
Proof.
  intros Hle Hmax Hfit.
  assert (to_DataSize env (size data) = size data) as Hsz.
  { apply to_DataSize_small. unfold size in *. lia. }
  assert (to_DataSize env (size data) <= kMaxTransportMessageSize env) as Hacc
    by now rewrite Hsz.
  assert (Z.of_nat (sizeof_string env) <= to_DataSize env (size data)) as Hfit'
    by now rewrite Hsz.
  split.
  - intros Ha r. subst r.
    rewrite (Send_response_accepted _ _ _ Hacc Hfit' Ha), Hsz. now split.
  - intros Ha He r. subst r.
    rewrite (HandleConnect_after_request _ _ _ _ Hacc Hfit' Ha He), Hsz. now split.
Qed.

(** *** The receive path *)

Lemma read_completes_run (stream : list byte) (h : Handler) (c : TcpConnection)
    (e : list Effect) (c' : TcpConnection) :
  (length (buffer_ c) <= length stream)%nat ->
  invoke env h success
    (set_buffer (map Char (firstn (length (buffer_ c)) stream)) c) = (e, c', Ok tt) ->
  read_completes env stream h c = (e, c', Ok (skipn (length (buffer_ c)) stream)).
Proof.
  intros Hlen Hinv. unfold read_completes.
  rewrite (bind_Ok get _ c [] c c eq_refl).
  destruct (Nat.ltb_spec (length stream) (length (buffer_ c))) as [H|_]; [lia|].
  rewrite (bind_Ok (modify _) _ c [] _ tt eq_refl).
  rewrite (bind_Ok (invoke env h success) _ _ e c' tt Hinv).
  cbn. now rewrite app_nil_r.
Qed.

(** X1.  The receive path gives back the payload of a well-formed frame.  On
    an open connection, a stream that starts with the length field of
    [data] followed by the bytes of [data] makes the connection read the
    length, read exactly [size data] bytes and hand exactly [data] to the
    message handler. *)
Theorem receive_dispatches_the_framed_payload
    (data rest : list byte) (c : TcpConnection) :
  size data < DataSize_modulus env ->
  socket_ c = true ->
  exists reply,
    effects (receive env (wire_frame env data ++ rest) c) =
    [async_read (Z.of_nat (sizeof_DataSize env)) bind_HandleSize;
     timer_expires_from_now (timeout_for_response_ c);
     timer_async_wait bind_HandleTimeout;
     async_read (size data) bind_HandleRead;
     timer_cancel;
     on_message_received data] ++ reply.
Proof.
  intros Hfit Hs.
  assert (0 <= size data) as Hnn by (unfold size; lia).
  unfold receive.
  rewrite (bind_Ok (StartReceiving env) _ c _ _ tt (StartReceiving_run c)).
  set (c1 := {| socket_ := socket_ c; timer_ := _; buffer_ := _;
                timeout_for_response_ := _ |}).
  assert (length (buffer_ c1) = sizeof_DataSize env) as L1.
  { unfold c1, Allocate. cbn [buffer_]. rewrite repeat_length. lia. }
  assert (firstn (sizeof_DataSize env) (wire_frame env data ++ rest)
          = DataSize_bytes env (size data)) as F1.
  { unfold wire_frame. rewrite <- app_assoc.
    rewrite <- (length_DataSize_bytes (size data)) at 1.
    now rewrite firstn_app, Nat.sub_diag, firstn_O, firstn_all, app_nil_r. }
  assert (skipn (sizeof_DataSize env) (wire_frame env data ++ rest)
          = data ++ rest) as S1.
  { unfold wire_frame. rewrite <- app_assoc.
    rewrite <- (length_DataSize_bytes (size data)) at 1.
    now rewrite skipn_app, Nat.sub_diag, skipn_all, skipn_O. }
  set (c2 := set_buffer (Allocate (size data))
               (set_buffer (map Char (DataSize_bytes env (size data))) c1)).
  assert (read_completes env (wire_frame env data ++ rest) bind_HandleSize c1
          = ([async_read (size data) bind_HandleRead], c2, Ok (data ++ rest))) as R1.
  { rewrite <- S1, <- L1. apply read_completes_run.
    - rewrite L1. unfold wire_frame.
      rewrite !length_app, length_DataSize_bytes. lia.
    - rewrite L1, F1. cbn [invoke].
      rewrite (HandleSize_proceeds success _ (size data)).
      + now rewrite Size_Allocate.
      + exact Hs.
      + reflexivity.
      + cbn [set_buffer buffer_]. rewrite <- (app_nil_r (map Char _)).
        rewrite load_DataSize_chars by apply length_DataSize_bytes.
        now rewrite DataSize_value_bytes, to_DataSize_small. }
  rewrite (bind_Ok _ _ c1 _ _ _ R1).
  assert (length (buffer_ c2) = length data) as L2.
  { unfold c2, Allocate, size. cbn [set_buffer buffer_].
    rewrite repeat_length. lia. }
  set (c3 := set_buffer (map Char data) c2).
  assert (HandleRead env success c3
          = (timer_dot_cancel ;; DispatchMessage env data) c3) as R2.
  { apply HandleRead_proceeds; [exact Hs | reflexivity |].
    cbn [c3 set_buffer buffer_]. apply chars_map_Char. }
  rewrite (bind_Ok timer_dot_cancel (fun _ => DispatchMessage env data) c3
             [timer_cancel] (state (timer_dot_cancel c3)) tt eq_refl) in R2.
  rewrite DispatchMessage_run in R2. cbv zeta in R2.
  set (out := message_handler env data ([], kImmediateTimeout env)) in R2.
  set (c4 := state (timer_dot_cancel c3)) in R2.
  assert (firstn (length (buffer_ c2)) (data ++ rest) = data) as F2.
  { now rewrite L2, firstn_app, Nat.sub_diag, firstn_O, firstn_all, app_nil_r. }
  assert (length (buffer_ c2) <= length (data ++ rest))%nat as Hlen2.
  { rewrite L2, length_app. lia. }
  assert (Size (Allocate (Z.of_nat (sizeof_DataSize env)))
          = Z.of_nat (sizeof_DataSize env)) as HS
    by (apply Size_Allocate; lia).
  destruct (empty (fst out)).
  - exists [].
    erewrite (read_completes_run (data ++ rest) bind_HandleRead c2)
      by (exact Hlen2 || (rewrite F2; exact R2)).
    cbn [effects state outcome fst snd app]. now rewrite HS.
  - exists (effects (Send env (fst out) (snd out) true c4)).
    unfold read_completes.
    rewrite (bind_Ok get _ c2 [] c2 c2 eq_refl).
    destruct (Nat.ltb_spec (length (data ++ rest)) (length (buffer_ c2))) as [H|_];
      [lia|].
    rewrite (bind_Ok (modify _) _ c2 [] _ tt eq_refl).
    rewrite F2. fold c3. cbn [invoke].
    unfold bind at 1. rewrite R2. cbn [effects state outcome fst snd app].
    rewrite HS.
    destruct (outcome (Send env (fst out) (snd out) true c4));
      cbn; now rewrite ?app_nil_r.
Qed.

Lemma chars_not_all_characters (pre post : list cell) (x : cell) :
  (forall b, x <> Char b) -> chars (pre ++ x :: post) = None.
Proof.
  intros Hx. induction pre as [|p pre IH]; cbn [app chars].
  - destruct x; [now elim (Hx b) | reflexivity | reflexivity].
  - rewrite IH. now destruct p.
Qed.

Lemma frame_split (data : list byte) :
  (0 < sizeof_string env)%nat ->
  exists pre post,
    frame env data = pre ++ StringObject data 0 :: post
    /\ length pre = sizeof_DataSize env.
Proof.
  intros Hs. pose proof (to_DataSize_nonneg (size data)) as Hm.
  pose proof (length_header data) as Lh.
  unfold frame, store.
  exists (firstn (sizeof_DataSize env) (header env data)).
  unfold string_object.
  destruct (sizeof_string env) as [|k]; [lia|].
  cbn [seq map app]. eexists. split; [reflexivity|].
  rewrite length_firstn. lia.
Qed.

(** C1, evaluated on the code.  [Send] writes the length field as bytes,
    but line 156 does not copy the payload behind it: it assigns to a
    [std::string] object placed there.  For a payload within the maximum
    message size that is shorter than that object, the store runs past
    the buffer and [Send] gets no further: nothing is written.  For a
    longer payload the first byte after the length field belongs to the
    object, and the buffer handed to [async_write] does not consist of
    characters.  Either way, no buffer that [Send] hands to [async_write]
    is the frame of the wire format (length field, then payload bytes)
    that the receive path decodes. *)
Theorem Send_stores_a_string_object_behind_the_length
    (data : list byte) (timeout : Timeout) (c : TcpConnection) :
  size data <= kMaxTransportMessageSize env ->
  kMaxTransportMessageSize env < DataSize_modulus env ->
  (0 < sizeof_string env)%nat ->
  NDEBUG env || socket_ c = true ->
  let r := Send env data timeout true c in
  (size data < Z.of_nat (sizeof_string env) ->
     outcome r = Stop store_out_of_bounds /\ effects r = [])
  /\ (Z.of_nat (sizeof_string env) <= size data ->
      exists sent,
        In (async_write sent bind_HandleWrite) (effects r)
        /\ sent = buffer_ (state r)
        /\ nth_error sent (sizeof_DataSize env) = Some (StringObject data 0)
        /\ chars sent = None
        /\ sent <> map Char (wire_frame env data))
  /\ (forall sent h,
        In (async_write sent h) (effects r) ->
        sent <> map Char (wire_frame env data)).
Proof.
  intros Hle Hmax Hs Ha r. subst r.
  assert (to_DataSize env (size data) = size data) as Hsz
    by (apply to_DataSize_small; unfold size in *; lia).
  assert (to_DataSize env (size data) <= kMaxTransportMessageSize env) as Hacc
    by now rewrite Hsz.
  destruct (frame_split data Hs) as (pre & post & E & L).
  assert (chars (frame env data) = None) as Hc.
  { rewrite E. apply chars_not_all_characters. discriminate. }
  assert (frame env data <> map Char (wire_frame env data)) as Hne.
  { intros F. rewrite F, chars_map_Char in Hc. discriminate Hc. }
  split; [|split].
  - intros Hshort.
    rewrite (Send_store_overruns _ _ _ _ Hacc) by now rewrite Hsz.
    split; reflexivity.
  - intros Hfit.
    rewrite (Send_response_accepted _ _ _ Hacc) by (now rewrite ?Hsz).
    cbn [effects state fst snd buffer_].
    exists (frame env data). repeat split.
    + right. right. now left.
    + rewrite E, nth_error_app2, L, Nat.sub_diag by lia. reflexivity.
    + exact Hc.
    + exact Hne.
  - intros sent h Hin.
    destruct (Z.ltb_spec (size data) (Z.of_nat (sizeof_string env))) as [Hshort|Hfit].
    + rewrite (Send_store_overruns _ _ _ _ Hacc) in Hin by now rewrite Hsz.
      destruct Hin.
    + rewrite (Send_response_accepted _ _ _ Hacc) in Hin by (now rewrite ?Hsz).
      destruct Hin as [I|[I|[I|[]]]]; try discriminate I.
      injection I as <- _. exact Hne.
Qed.

(** *** Further properties of Send *)

(** X2.  [Send] reports [kMessageSizeTooLarge] exactly when the size it
    converted to [DataSize] exceeds the maximum; a payload of exactly the
    maximum size is accepted.  Whatever it is given, [Send] reports no
    other error, never closes the socket, never cancels the timer and
    never calls [RemoveConnection], and it starts at most one socket
    operation. *)
Theorem Send_rejects_iff_too_large_and_never_closes
    (data : list byte) (timeout : Timeout) (is_response : bool)
    (c : TcpConnection) :
  let es := effects (Send env data timeout is_response c) in
  (In (on_error kMessageSizeTooLarge) es
     <-> kMaxTransportMessageSize env < to_DataSize env (size data))
  /\ (forall e, In (on_error e) es -> e = kMessageSizeTooLarge)
  /\ ~ In socket_close es
  /\ ~ In timer_cancel es
  /\ removals es = 0%nat
  /\ (socket_operations es <= 1)%nat.
Proof.
  intros es. subst es.
  destruct (Send_cases data timeout is_response c)
    as [(H & E)|[(H & _ & E)|[(H & _ & _ & E)|[(H & _ & E)|(H & _ & E)]]]];
    rewrite E; cbn [effects fst].
  - split; [split; [intros _; exact H | intros _; now left]|].
    split; [intros e [I|[]]; congruence|].
    split; [intros [I|[]]; discriminate I|].
    split; [intros [I|[]]; discriminate I|].
    split; [reflexivity | cbn; lia].
  - split; [split; [intros [] | intros L; lia]|].
    split; [intros e []|].
    split; [intros []|]. split; [intros []|].
    split; [reflexivity | cbn; lia].
  - split; [split; [intros [] | intros L; lia]|].
    split; [intros e []|].
    split; [intros []|]. split; [intros []|].
    split; [reflexivity | cbn; lia].
  - split; [split; [intros [I|[I|[I|[]]]]; discriminate I | intros L; lia]|].
    split; [intros e [I|[I|[I|[]]]]; discriminate I|].
    split; [intros [I|[I|[I|[]]]]; discriminate I|].
    split; [intros [I|[I|[I|[]]]]; discriminate I|].
    split; [reflexivity | cbn; lia].
  - split; [split; [intros [I|[I|[I|[]]]]; discriminate I | intros L; lia]|].
    split; [intros e [I|[I|[I|[]]]]; discriminate I|].
    split; [intros [I|[I|[I|[]]]]; discriminate I|].
    split; [intros [I|[I|[I|[]]]]; discriminate I|].
    split; [reflexivity | cbn; lia].
Qed.

(** *** What one handler invocation can do *)

Lemma HandleSize_undefined (ec : error_code) (c : TcpConnection) :
  socket_ c = true -> is_set ec = false ->
  load_DataSize env (buffer_ c) = None ->
  HandleSize env ec c = ([], c, Stop undefined_read).
Proof.
  intros Hs He Hl. destruct c as [s t b r]. cbn [socket_ buffer_] in Hs, Hl.
  subst s. unfold HandleSize. run. now rewrite He, Hl.
Qed.

Lemma HandleRead_undefined (ec : error_code) (c : TcpConnection) :
  socket_ c = true -> is_set ec = false ->
  chars (buffer_ c) = None ->
  HandleRead env ec c = ([], c, Stop undefined_read).
Proof.
  intros Hs He Hl. destruct c as [s t b r]. cbn [socket_ buffer_] in Hs, Hl.
  subst s. unfold HandleRead. unfold bind at 1, get.
  cbn [socket_ negb buffer_ app]. now rewrite He, Hl.
Qed.

Lemma HandleRead_run (ec : error_code) (c : TcpConnection) (data : list byte) :
  socket_ c = true -> is_set ec = false ->
  chars (buffer_ c) = Some data ->
  let out := message_handler env data ([], kImmediateTimeout env) in
  let cancelled := state (timer_dot_cancel c) in
  HandleRead env ec c =
  if empty (fst out)
  then ([timer_cancel; on_message_received data], cancelled, Ok tt)
  else (timer_cancel :: on_message_received data
          :: effects (Send env (fst out) (snd out) true cancelled),
        state (Send env (fst out) (snd out) true cancelled),
        outcome (Send env (fst out) (snd out) true cancelled)).
Proof.
  intros Hs He Hd out cancelled.
  rewrite (HandleRead_proceeds _ _ _ Hs He Hd).
  rewrite (bind_Ok timer_dot_cancel (fun _ => DispatchMessage env data) c
             [timer_cancel] cancelled tt eq_refl).
  rewrite DispatchMessage_run. cbv zeta. fold out.
  now destruct (empty (fst out)).
Qed.

(** One invocation of a bound handler does one of three things: it
    reports a timeout or a failure and runs [Close]; it runs [Close]
    without a report; or it goes on, and then it reports no error but
    possibly [kMessageSizeTooLarge], does not call [RemoveConnection] and
    starts at most one socket operation. *)
Lemma invoke_cases (h : Handler) (ec : error_code) (c : TcpConnection) :
  (exists e, e <> kMessageSizeTooLarge
     /\ invoke env h ec c
        = ([on_error e; socket_close; timer_cancel; RemoveConnection],
           closed c, Ok tt))
  \/ invoke env h ec c = Close c
  \/ ((forall e, In (on_error e) (effects (invoke env h ec c)) ->
                 e = kMessageSizeTooLarge)
      /\ removals (effects (invoke env h ec c)) = 0%nat
      /\ (socket_operations (effects (invoke env h ec c)) <= 1)%nat).
Proof.
  assert (forall r : list Effect * TcpConnection * result unit,
            (effects r = [] \/ (exists x, effects r = [x] /\ is_RemoveConnection x = false
                                          /\ forall e, x <> on_error e) ) ->
            (forall e, In (on_error e) (effects r) -> e = kMessageSizeTooLarge)
            /\ removals (effects r) = 0%nat
            /\ (socket_operations (effects r) <= 1)%nat) as Small.
  { intros r [E|(x & E & R & O)]; rewrite E.
    - repeat split; [intros e []| cbn; lia].
    - split; [intros e [I|[]]; now elim (O e)|].
      unfold removals, socket_operations. cbn [filter]. rewrite R.
      split; [reflexivity|]. destruct (is_socket_operation x); cbn; lia. }
  destruct h.
  - (* HandleTimeout *)
    right. right. apply Small. cbn [invoke]. unfold HandleTimeout.
    destruct (is_set ec); [now left|].
    right. exists socket_close. repeat split; discriminate.
  - (* HandleSize *)
    destruct (socket_ c) eqn:Hs.
    2:{ left. exists kReceiveTimeout. split; [discriminate|].
        now apply (handler_socket_closed bind_HandleSize). }
    destruct (is_set ec) eqn:He.
    1:{ left. exists kReceiveFailure. split; [discriminate|].
        now apply (handler_operation_failed bind_HandleSize). }
    right. right. apply Small. cbn [invoke].
    destruct (load_DataSize env (buffer_ c)) as [n|] eqn:Hl.
    + rewrite (HandleSize_proceeds _ _ _ Hs He Hl). right.
      eexists. split; [reflexivity|]. repeat split; discriminate.
    + rewrite (HandleSize_undefined _ _ Hs He Hl). now left.
  - (* HandleRead *)
    destruct (socket_ c) eqn:Hs.
    2:{ left. exists kReceiveTimeout. split; [discriminate|].
        now apply (handler_socket_closed bind_HandleRead). }
    destruct (is_set ec) eqn:He.
    1:{ left. exists kReceiveFailure. split; [discriminate|].
        now apply (handler_operation_failed bind_HandleRead). }
    right. right. cbn [invoke].
    destruct (chars (buffer_ c)) as [data|] eqn:Hd.
    2:{ apply Small. rewrite (HandleRead_undefined _ _ Hs He Hd). now left. }
    rewrite (HandleRead_run _ _ _ Hs He Hd). cbv zeta.
    set (out := message_handler env data ([], kImmediateTimeout env)).
    set (cancelled := state (timer_dot_cancel c)).
    destruct (empty (fst out)).
    { cbn [effects fst]. split; [|split; [reflexivity | cbn; lia]].
      intros e [I|[I|[]]]; discriminate I. }
    cbn [effects fst].
    destruct (Send_cases (fst out) (snd out) true cancelled)
      as [(_ & E)|[(_ & _ & E)|[(_ & _ & _ & E)|[(_ & _ & E)|(_ & _ & E)]]]];
      rewrite E; cbn [effects fst].
    + split; [|split; [reflexivity | cbn; lia]].
      intros e [I|[I|[I|[]]]]; congruence.
    + split; [|split; [reflexivity | cbn; lia]].
      intros e [I|[I|[]]]; discriminate I.
    + split; [|split; [reflexivity | cbn; lia]].
      intros e [I|[I|[]]]; discriminate I.
    + split; [|split; [reflexivity | cbn; lia]].
      intros e [I|[I|[I|[I|[I|[]]]]]]; discriminate I.
    + split; [|split; [reflexivity | cbn; lia]].
      intros e [I|[I|[I|[I|[I|[]]]]]]; discriminate I.
  - (* HandleConnect *)
    destruct (socket_ c) eqn:Hs.
    2:{ left. exists kSendTimeout. split; [discriminate|].
        now apply (handler_socket_closed bind_HandleConnect). }
    destruct (is_set ec) eqn:He.
    1:{ left. exists kSendFailure. split; [discriminate|].
        now apply (handler_operation_failed bind_HandleConnect). }
    right. right. cbn [invoke]. rewrite (HandleConnect_proceeds _ _ Hs He).
    cbn [effects fst]. split; [|split; [reflexivity | cbn; lia]].
    intros e [I|[I|[I|[]]]]; discriminate I.
  - (* HandleWrite *)
    destruct (socket_ c) eqn:Hs.
    2:{ left. exists kSendTimeout. split; [discriminate|].
        now apply (handler_socket_closed bind_HandleWrite). }
    destruct (is_set ec) eqn:He.
    1:{ left. exists kSendFailure. split; [discriminate|].
        now apply (handler_operation_failed bind_HandleWrite). }
    cbn [invoke]. rewrite (HandleWrite_proceeds _ _ Hs He).
    destruct (timeout_for_response_ c =? kImmediateTimeout env).
    + right. now left.
    + right. right. rewrite StartReceiving_run. cbn [effects fst].
      split; [|split; [reflexivity | cbn; lia]].
      intros e [I|[I|[I|[]]]]; discriminate I.
Qed.

(** X3.  A handler that reports a timeout or a failure always runs
    [Close] with it.  Whenever an invocation of a bound handler calls the
    error callback with a kind other than [kMessageSizeTooLarge], the
    same invocation calls [RemoveConnection] exactly once, starts no
    socket operation, and returns with the socket closed and no wait
    pending on the timer. *)
Theorem reported_timeout_or_failure_closes
    (h : Handler) (ec : error_code) (c : TcpConnection) (e : TransportCondition) :
  In (on_error e) (effects (invoke env h ec c)) ->
  e <> kMessageSizeTooLarge ->
  removals (effects (invoke env h ec c)) = 1%nat
  /\ socket_operations (effects (invoke env h ec c)) = 0%nat
  /\ socket_ (state (invoke env h ec c)) = false
  /\ pending_wait (timer_ (state (invoke env h ec c))) = false.
Proof.
  intros Hin Hne.
  destruct (invoke_cases h ec c) as [(e' & _ & E)|[E|(O & _)]].
  - rewrite E. repeat split.
  - rewrite E, Close_run in Hin. destruct Hin as [I|[I|[I|[]]]]; discriminate I.
  - now elim Hne; apply O.
Qed.

(** X4.  One invocation of a bound handler calls [RemoveConnection] at
    most once and starts at most one socket operation (read, write or
    connect), and never both: an invocation that removes the connection
    leaves no operation behind. *)
Theorem handler_starts_one_operation_or_closes
    (h : Handler) (ec : error_code) (c : TcpConnection) :
  (removals (effects (invoke env h ec c))
   + socket_operations (effects (invoke env h ec c)) <= 1)%nat.
Proof.
  destruct (invoke_cases h ec c) as [(e' & _ & E)|[E|(_ & R & S)]].
  - rewrite E. cbn. lia.
  - rewrite E, Close_run. cbn. lia.
  - rewrite R. exact S.
Qed.

(** *** The deadline against the operation *)

(** X5.  When the deadline fires before a completion handler runs, the
    handler reports a timeout and never a failure, whatever error code
    the aborted operation carries.  With a wait pending, the expiry
    closes the socket and nothing else; the handler that runs next
    ([HandleSize], [HandleRead], [HandleConnect] or [HandleWrite]) then
    reports its timeout kind and runs [Close], so the connection is
    removed exactly once. *)
Theorem expired_deadline_is_reported_as_timeout
    (h : Handler) (ec : error_code) (c : TcpConnection) :
  In h [bind_HandleConnect; bind_HandleWrite; bind_HandleSize; bind_HandleRead] ->
  pending_wait (timer_ c) = true ->
  let expired := set_socket false
                   (set_timer {| expiry := expiry (timer_ c);
                                 pending_wait := false |} c) in
  timer_expires c = Some ([socket_close], expired, Ok tt)
  /\ invoke env h ec expired
     = ([on_error (timeout_class h); socket_close; timer_cancel; RemoveConnection],
        closed c, Ok tt)
  /\ timeout_class h <> failure_class h
  /\ removals (socket_close :: effects (invoke env h ec expired)) = 1%nat.
Proof.
  intros Hin Hp expired.
  assert (h <> bind_HandleTimeout) as Hh.
  { intros ->. cbn in Hin. intuition discriminate. }
  assert (invoke env h ec expired
          = ([on_error (timeout_class h); socket_close; timer_cancel;
              RemoveConnection], closed c, Ok tt)) as E.
  { now rewrite (handler_socket_closed h ec expired Hh eq_refl). }
  split; [|split; [exact E|split]].
  - unfold timer_expires. now rewrite Hp.
  - destruct h; discriminate.
  - now rewrite E.
Qed.

(** *** The length field *)

Lemma frame_starts_with_the_length (data : list byte) :
  exists rest,
    frame env data
    = map Char (DataSize_bytes env (to_DataSize env (size data))) ++ rest.
Proof.
  pose proof (to_DataSize_nonneg (size data)) as Hm.
  set (hdr := map Char (DataSize_bytes env (to_DataSize env (size data)))).
  assert (length hdr = sizeof_DataSize env) as Lh
    by (unfold hdr; now rewrite length_map, length_DataSize_bytes).
  assert (header env data
          = hdr ++ skipn (sizeof_DataSize env)
                     (Allocate (to_DataSize env (size data)
                                + Z.of_nat (sizeof_DataSize env)))) as Eh.
  { unfold header, store. cbv zeta. fold hdr.
    cbn [firstn app Nat.add]. now rewrite Lh. }
  unfold frame. rewrite Eh. unfold store at 1.
  rewrite firstn_app, Lh, Nat.sub_diag, firstn_O, app_nil_r.
  rewrite (firstn_all2 hdr) by lia. eexists. reflexivity.
Qed.

Lemma Send_fills_the_buffer (data : list byte) (timeout : Timeout)
    (is_response : bool) (c : TcpConnection) :
  to_DataSize env (size data) <= kMaxTransportMessageSize env ->
  Z.of_nat (sizeof_string env) <= to_DataSize env (size data) ->
  buffer_ (state (Send env data timeout is_response c)) = frame env data
  /\ timeout_for_response_ (state (Send env data timeout is_response c)) = timeout.
Proof.
  intros Hok Hfit.
  destruct (Send_cases data timeout is_response c)
    as [(H & _)|[(_ & H & _)|[(_ & _ & _ & E)|[(_ & _ & E)|(_ & _ & E)]]]];
    [lia | lia | rewrite E; split; reflexivity ..].
Qed.

(** X6.  The length field that [Send] writes is the one [HandleSize]
    reads.  For a payload within the maximum message size that the store
    of line 156 has room for, [Send] leaves a buffer of exactly
    [size data + sizeof(DataSize)] bytes whose first [sizeof(DataSize)]
    bytes, read back as [HandleSize] reads them, give [size data], in
    either byte order; and it records [timeout] as the response timeout.
    This holds on both paths of [Send]. *)
Theorem Send_length_field_reads_back
    (data : list byte) (timeout : Timeout) (is_response : bool)
    (c : TcpConnection) :
  size data <= kMaxTransportMessageSize env ->
  kMaxTransportMessageSize env < DataSize_modulus env ->
  Z.of_nat (sizeof_string env) <= size data ->
  let sent := state (Send env data timeout is_response c) in
  Size (buffer_ sent) = size data + Z.of_nat (sizeof_DataSize env)
  /\ load_DataSize env (buffer_ sent) = Some (size data)
  /\ timeout_for_response_ sent = timeout.
Proof.
  intros Hle Hmax Hfit sent. subst sent.
  assert (to_DataSize env (size data) = size data) as Hsz
    by (apply to_DataSize_small; unfold size in *; lia).
  destruct (Send_fills_the_buffer data timeout is_response c) as [Eb Et];
    [now rewrite Hsz | now rewrite Hsz |].
  rewrite Eb, Et. split; [rewrite Size_frame; rewrite Hsz; lia|].
  split; [|reflexivity].
  destruct (frame_starts_with_the_length data) as [rest E].
  rewrite E, load_DataSize_chars by apply length_DataSize_bytes.
  now rewrite DataSize_value_bytes, Hsz, Hsz.
Qed.

(** *** Whole exchanges *)

(** X7.  The initiator's exchange.  After [Send] as a request,
    a successful connect and a successful write, the [timeout] given to
    [Send] decides what follows: when it is [kImmediateTimeout] the
    connection is closed and removed and no read is ever issued; when it
    is any other value the read of the length field is issued and
    [timeout] is the deadline armed for it.  The deadline of the write
    itself never depends on [timeout].  This is for a payload that the
    store of line 156 has room for; for a shorter one [Send] gets no
    further than that line. *)
Theorem request_then_connect_then_write
    (data : list byte) (timeout : Timeout) (ec1 ec2 : error_code)
    (c : TcpConnection) :
  to_DataSize env (size data) <= kMaxTransportMessageSize env ->
  Z.of_nat (sizeof_string env) <= to_DataSize env (size data) ->
  NDEBUG env || negb (socket_ c) = true ->
  is_set ec1 = false -> is_set ec2 = false ->
  let connecting := state (Send env data timeout false c) in
  let writing := state (HandleConnect env ec1 connecting) in
  let r := HandleWrite env ec2 writing in
  expiry (timer_ writing)
    = write_deadline env (to_DataSize env (size data) + Z.of_nat (sizeof_DataSize env))
  /\ (timeout = kImmediateTimeout env ->
      effects r = [socket_close; timer_cancel; RemoveConnection]
      /\ socket_ (state r) = false
      /\ pending_wait (timer_ (state r)) = false)
  /\ (timeout <> kImmediateTimeout env ->
      effects r = [async_read (Z.of_nat (sizeof_DataSize env)) bind_HandleSize;
                   timer_expires_from_now timeout;
                   timer_async_wait bind_HandleTimeout]
      /\ socket_ (state r) = true
      /\ timer_ (state r) = {| expiry := timeout; pending_wait := true |}).
Proof.
  intros Hok Hfit Ha He1 He2 connecting writing r. subst r writing connecting.
  rewrite (HandleConnect_after_request _ _ _ _ Hok Hfit Ha He1).
  cbn [state fst snd timer_ expiry]. split; [reflexivity|].
  rewrite HandleWrite_proceeds by (exact He2 || reflexivity).
  cbn [timeout_for_response_].
  assert (Size (Allocate (Z.of_nat (sizeof_DataSize env)))
          = Z.of_nat (sizeof_DataSize env)) as HS
    by (apply Size_Allocate; lia).
  destruct (Z.eqb_spec timeout (kImmediateTimeout env)) as [E|E].
  - split; [|congruence]. intros _. rewrite Close_run. repeat split.
  - split; [congruence|]. intros _. rewrite StartReceiving_run, HS.
    repeat split.
Qed.

(** X8.  One deadline covers both reads of a message.  [StartReceiving]
    arms the response timeout; a length read that completes leaves the
    timer exactly as armed, since [HandleSize] only reallocates the
    buffer and issues the body read.  The body is therefore read under
    what is left of the same deadline. *)
Theorem length_read_keeps_the_deadline
    (stream : list byte) (c : TcpConnection) :
  socket_ c = true ->
  (sizeof_DataSize env <= length stream)%nat ->
  let n := DataSize_value env (firstn (sizeof_DataSize env) stream) in
  let reading := state (StartReceiving env c) in
  let r := read_completes env stream bind_HandleSize reading in
  effects r = [async_read n bind_HandleRead]
  /\ outcome r = Ok (skipn (sizeof_DataSize env) stream)
  /\ Size (buffer_ (state r)) = n
  /\ timer_ (state r) = timer_ reading
  /\ timer_ (state r)
     = {| expiry := timeout_for_response_ c; pending_wait := true |}.
Proof.
  intros Hs Hlen n reading r. subst r reading.
  rewrite StartReceiving_run. cbn [state fst snd].
  set (c1 := {| socket_ := socket_ c; timer_ := _; buffer_ := _;
                timeout_for_response_ := _ |}).
  assert (length (buffer_ c1) = sizeof_DataSize env) as L1.
  { unfold c1, Allocate. cbn [buffer_]. rewrite repeat_length. lia. }
  assert (length (firstn (sizeof_DataSize env) stream) = sizeof_DataSize env) as Lf
    by (rewrite length_firstn; lia).
  pose proof (DataSize_value_range _ Lf) as Hn. fold n in Hn.
  assert (invoke env bind_HandleSize success
            (set_buffer (map Char (firstn (length (buffer_ c1)) stream)) c1)
          = ([async_read n bind_HandleRead],
             set_buffer (Allocate n)
               (set_buffer (map Char (firstn (length (buffer_ c1)) stream)) c1),
             Ok tt)) as Hinv.
  { rewrite L1. cbn [invoke].
    rewrite (HandleSize_proceeds success _ n); [| exact Hs | reflexivity |].
    - rewrite Size_Allocate by lia. reflexivity.
    - cbn [set_buffer buffer_]. rewrite <- (app_nil_r (map Char _)).
      now rewrite load_DataSize_chars. }
  rewrite (read_completes_run stream bind_HandleSize c1 _ _
             ltac:(rewrite L1; exact Hlen) Hinv).
  cbn [effects state outcome fst snd]. rewrite L1. split; [reflexivity|].
  split; [reflexivity|]. cbn [set_buffer buffer_ timer_].
  split; [apply Size_Allocate; lia|]. split; reflexivity.
Qed.

(** X9.  The responder's exchange.  When the handler gives a reply
    within the maximum message size that the store of line 156 has room
    for, a successful body read cancels the read deadline, dispatches,
    arms the write deadline of the reply's size and issues the write of
    the buffer [Send] built for the reply (the length field followed by
    what line 156 stored, which is not the reply's bytes); the timeout
    the handler left in [*response_timeout] becomes the response
    timeout.  Once that write completes, the connection is closed and
    removed when the handler left the timeout at its initial
    [kImmediateTimeout], and otherwise waits for another message under
    the handler's timeout. *)
Theorem reply_is_written_then_closed_or_awaited
    (data reply : list byte) (reply_timeout : Timeout) (ec1 ec2 : error_code)
    (c : TcpConnection) :
  socket_ c = true -> is_set ec1 = false -> is_set ec2 = false ->
  chars (buffer_ c) = Some data ->
  message_handler env data ([], kImmediateTimeout env) = (reply, reply_timeout) ->
  reply <> [] ->
  to_DataSize env (size reply) <= kMaxTransportMessageSize env ->
  Z.of_nat (sizeof_string env) <= to_DataSize env (size reply) ->
  let replying := HandleRead env ec1 c in
  let r := HandleWrite env ec2 (state replying) in
  effects replying
    = [timer_cancel; on_message_received data;
       timer_expires_from_now (write_deadline env (to_DataSize env (size reply)));
       timer_async_wait bind_HandleTimeout;
       async_write (frame env reply) bind_HandleWrite]
  /\ timeout_for_response_ (state replying) = reply_timeout
  /\ (reply_timeout = kImmediateTimeout env ->
      effects r = [socket_close; timer_cancel; RemoveConnection])
  /\ (reply_timeout <> kImmediateTimeout env ->
      effects r = [async_read (Z.of_nat (sizeof_DataSize env)) bind_HandleSize;
                   timer_expires_from_now reply_timeout;
                   timer_async_wait bind_HandleTimeout]).
Proof.
  intros Hs He1 He2 Hd Hm Hne Hok Hfit replying r. subst r replying.
  rewrite (HandleRead_run _ _ _ Hs He1 Hd). cbv zeta. rewrite Hm.
  cbn [fst snd].
  destruct reply as [|b reply']; [congruence|]. cbn [empty].
  set (reply := b :: reply') in *.
  assert (socket_ (state (timer_dot_cancel c)) = true) as Hs'
    by (destruct c; exact Hs).
  rewrite (Send_response_accepted reply reply_timeout _ Hok Hfit)
    by (rewrite Hs'; apply orb_true_r).
  cbn [effects state outcome fst snd timeout_for_response_].
  split; [reflexivity|]. split; [reflexivity|].
  rewrite HandleWrite_proceeds by (exact He2 || exact Hs').
  cbn [timeout_for_response_].
  assert (Size (Allocate (Z.of_nat (sizeof_DataSize env)))
          = Z.of_nat (sizeof_DataSize env)) as HS
    by (apply Size_Allocate; lia).
  destruct (Z.eqb_spec reply_timeout (kImmediateTimeout env)) as [E|E].
  - split; [|congruence]. intros _. now rewrite Close_run.
  - split; [congruence|]. intros _. now rewrite StartReceiving_run, HS.
Qed.


(** X11.  With asserts compiled in, [Send] used against its
    precondition - as a response on a socket that is not open, or as a
    request on one that is - with a payload that the store of line 156
    has room for stops at the assert: no timer is armed and no socket
    operation is started.  The buffer and the response timeout have been
    overwritten by then. *)
Theorem Send_against_its_assert_starts_nothing
    (data : list byte) (timeout : Timeout) (is_response : bool)
    (c : TcpConnection) :
  NDEBUG env = false ->
  socket_ c = negb is_response ->
  to_DataSize env (size data) <= kMaxTransportMessageSize env ->
  Z.of_nat (sizeof_string env) <= to_DataSize env (size data) ->
  let r := Send env data timeout is_response c in
  outcome r = Stop assertion_failed
  /\ effects r = []
  /\ timer_ (state r) = timer_ c
  /\ socket_ (state r) = socket_ c
  /\ buffer_ (state r) = frame env data
  /\ timeout_for_response_ (state r) = timeout.
Proof.
  intros Hn Hs Hok Hfit r. subst r.
  rewrite (Send_assert_fails _ _ _ _ Hok Hfit Hn Hs). repeat split.
Qed.

End Properties.

(** ** The properties on the sample host *)

(** C1's theorem at work: ["PING"] is shorter than the string object,
    so [Send] stops at line 156; a payload of 40 bytes is written, but
    not as its frame. *)
Lemma Send_PING_stores_a_string_object :
  size PING <= kMaxTransportMessageSize (host no_reply)
  /\ size PING < Z.of_nat (sizeof_string (host no_reply))
  /\ outcome (Send (host no_reply) PING 0 true (connected (host no_reply)))
     = Stop store_out_of_bounds
  /\ effects (Send (host no_reply) PING 0 true (connected (host no_reply))) = []
  /\ Z.of_nat (sizeof_string (host no_reply)) <= size payload_40
  /\ exists sent,
       In (async_write sent bind_HandleWrite)
          (effects (Send (host no_reply) payload_40 0 true
                      (connected (host no_reply))))
       /\ nth_error sent (sizeof_DataSize (host no_reply))
          = Some (StringObject payload_40 0)
       /\ chars sent = None
       /\ sent <> map Char (wire_frame (host no_reply) payload_40).
Proof.
  assert (size PING <= kMaxTransportMessageSize (host no_reply)) as H1
    by (vm_compute; discriminate).
  assert (size payload_40 <= kMaxTransportMessageSize (host no_reply)) as H1'
    by (vm_compute; discriminate).
  assert (kMaxTransportMessageSize (host no_reply)
          < DataSize_modulus (host no_reply)) as H2 by reflexivity.
  assert (0 < sizeof_string (host no_reply))%nat as H3
    by (apply Nat.ltb_lt; reflexivity).
  assert (size PING < Z.of_nat (sizeof_string (host no_reply))) as H4
    by reflexivity.
  assert (Z.of_nat (sizeof_string (host no_reply)) <= size payload_40) as H5
    by (vm_compute; discriminate).
  destruct (Send_stores_a_string_object_behind_the_length
              (host no_reply) PING 0 (connected (host no_reply))
              H1 H2 H3 eq_refl) as (Short & _ & _).
  destruct (Send_stores_a_string_object_behind_the_length
              (host no_reply) payload_40 0 (connected (host no_reply))
              H1' H2 H3 eq_refl) as (_ & Long & _).
  destruct (Short H4) as (O & E).
  destruct (Long H5) as (sent & I & _ & N & C & D).
  split; [exact H1|]. split; [exact H4|]. split; [exact O|]. split; [exact E|].
  split; [exact H5|].
  exists sent. split; [exact I|]. split; [exact N|]. split; [exact C | exact D].
Defined.

(** The hypothesis of C2's theorem holds for a handler that leaves the
    reply as it found it. *)
Lemma DispatchMessage_no_reply_leaves_socket_open :
  empty (fst (message_handler (host no_reply) PING
                ([], kImmediateTimeout (host no_reply)))) = true
  /\ DispatchMessage (host no_reply) PING (connected (host no_reply))
     = ([on_message_received PING], connected (host no_reply), Ok tt)
  /\ socket_ (state (DispatchMessage (host no_reply) PING
                       (connected (host no_reply)))) = true.
Proof.
  split; [reflexivity|].
  destruct (DispatchMessage_empty_reply_returns_without_Close
              (host no_reply) PING success (connected (host no_reply)) eq_refl)
    as (D & _ & _).
  split; [exact D|]. rewrite D. reflexivity.
Defined.

(** Against C3 as stated: two calls of [Close] in a row call the owner's
    [RemoveConnection] twice, not once, and the second call is not a
    no-op. *)
Lemma Close_twice_removes_twice :
  removals (effects ((Close ;; Close) (connected (host no_reply)))) = 2%nat
  /\ removals (effects ((Close ;; Close) (connected (host no_reply)))) <> 1%nat
  /\ effects (Close (state (Close (connected (host no_reply))))) <> [].
Proof.
  split; [reflexivity|]. split; discriminate.
Qed.

(** C4, evaluated on the code.  With a four-byte [DataSize], a payload
    of 4 GiB and 40 bytes is larger than the limit, but [Send] tests the
    size after converting it to [DataSize], which gives 40: no error is
    reported, and [Send] goes on to arm the deadline and issue the
    write. *)
Lemma Send_oversized_payload_passes_the_check :
  kMaxTransportMessageSize (host no_reply) < size payload_4GiB_40
  /\ to_DataSize (host no_reply) (size payload_4GiB_40) = 40
  /\ effects (Send (host no_reply) payload_4GiB_40 0 true (connected (host no_reply)))
     = [timer_expires_from_now 500;
        timer_async_wait bind_HandleTimeout;
        async_write (frame (host no_reply) payload_4GiB_40) bind_HandleWrite]
  /\ ~ In (on_error kMessageSizeTooLarge)
         (effects (Send (host no_reply) payload_4GiB_40 0 true
                     (connected (host no_reply)))).
Proof.
  assert (size payload_4GiB_40 = 4294967336) as Hsize
    by (apply size_repeat; discriminate).
  assert (to_DataSize (host no_reply) (size payload_4GiB_40) = 40) as Hconv
    by (rewrite Hsize; reflexivity).
  assert (effects (Send (host no_reply) payload_4GiB_40 0 true
                     (connected (host no_reply)))
          = [timer_expires_from_now 500;
             timer_async_wait bind_HandleTimeout;
             async_write (frame (host no_reply) payload_4GiB_40) bind_HandleWrite])
    as Heff.
  { rewrite Send_response_accepted.
    - cbn [effects fst]. rewrite Hconv. reflexivity.
    - rewrite Hconv. discriminate.
    - rewrite Hconv. discriminate.
    - reflexivity. }
  split; [rewrite Hsize; reflexivity|]. split; [exact Hconv|].
  split; [exact Heff|].
  rewrite Heff. intros [H|[H|[H|[]]]]; discriminate H.
Qed.

(** C5's theorem at work: a length read whose deadline fired first, a
    write that failed, and a connect that succeeded. *)
Lemma completion_handlers_on_the_sample_host :
  In bind_HandleSize
     [bind_HandleConnect; bind_HandleWrite; bind_HandleSize; bind_HandleRead]
  /\ invoke (host no_reply) bind_HandleSize operation_aborted (fresh (host no_reply))
     = ([on_error kReceiveTimeout; socket_close; timer_cancel; RemoveConnection],
        closed (fresh (host no_reply)), Ok tt)
  /\ invoke (host no_reply) bind_HandleWrite (system_error 104)
       (connected (host no_reply))
     = ([on_error kSendFailure; socket_close; timer_cancel; RemoveConnection],
        closed (connected (host no_reply)), Ok tt)
  /\ HandleConnect (host no_reply) success (connected (host no_reply))
     = (StartTimeout (write_deadline (host no_reply)
                        (Size (buffer_ (connected (host no_reply))))) ;;
        asio_async_write bind_HandleWrite) (connected (host no_reply)).
Proof.
  split; [right; right; left; reflexivity|]. split; [|split].
  - apply (proj1 (completion_handlers_check_socket_then_error
                    (host no_reply) bind_HandleSize operation_aborted
                    (fresh (host no_reply))
                    (or_intror (or_intror (or_introl eq_refl))))).
    reflexivity.
  - apply (proj1 (proj2 (completion_handlers_check_socket_then_error
                    (host no_reply) bind_HandleWrite (system_error 104)
                    (connected (host no_reply))
                    (or_intror (or_introl eq_refl))))); reflexivity.
  - apply (proj2 (proj2 (completion_handlers_check_socket_then_error
                    (host no_reply) bind_HandleConnect success
                    (connected (host no_reply))
                    (or_introl eq_refl)))); reflexivity.
Defined.

(** C6's theorem at work on a payload of 59996 bytes: the response path
    arms 599 ticks, the deadline of the payload, and [HandleConnect]
    arms 600, the deadline of the 60000 bytes of the buffer. *)
Lemma write_deadline_of_59996_bytes :
  size payload_59996 <= kMaxTransportMessageSize (host no_reply)
  /\ kMaxTransportMessageSize (host no_reply) < DataSize_modulus (host no_reply)
  /\ Z.of_nat (sizeof_string (host no_reply)) <= size payload_59996
  /\ timer_ (state (Send (host no_reply) payload_59996 0 true
                      (connected (host no_reply))))
     = {| expiry := 599; pending_wait := true |}
  /\ timer_ (state (HandleConnect (host no_reply) success
                      (state (Send (host no_reply) payload_59996 0 false
                                (fresh (host no_reply))))))
     = {| expiry := 600; pending_wait := true |}.
Proof.
  assert (size payload_59996 = 59996) as Hsize
    by (apply size_repeat; discriminate).
  assert (size payload_59996 <= kMaxTransportMessageSize (host no_reply)) as H1
    by (rewrite Hsize; discriminate).
  assert (kMaxTransportMessageSize (host no_reply)
          < DataSize_modulus (host no_reply)) as H2 by reflexivity.
  assert (Z.of_nat (sizeof_string (host no_reply)) <= size payload_59996) as H3
    by (rewrite Hsize; discriminate).
  destruct (write_deadline_of_each_path (host no_reply) payload_59996 0 success
              (connected (host no_reply)) H1 H2 H3) as (R & _).
  destruct (write_deadline_of_each_path (host no_reply) payload_59996 0 success
              (fresh (host no_reply)) H1 H2 H3) as (_ & Q).
  destruct (R eq_refl) as (_ & T1). destruct (Q eq_refl eq_refl) as (_ & T2).
  rewrite Hsize in T1, T2.
  split; [exact H1|]. split; [exact H2|]. split; [exact H3|].
  split; [exact T1 | exact T2].
Defined.

(** The hypotheses of C7's theorem hold after a request that expects a
    response, and after one that does not. *)
Lemma HandleWrite_on_the_sample_host :
  socket_ (connected (host no_reply)) = true
  /\ is_set success = false
  /\ HandleWrite (host no_reply) success (connected (host no_reply))
     = StartReceiving (host no_reply) (connected (host no_reply))
  /\ HandleWrite (host no_reply) success
       (set_timeout_for_response 0 (connected (host no_reply)))
     = Close (set_timeout_for_response 0 (connected (host no_reply))).
Proof.
  split; [reflexivity|]. split; [reflexivity|]. split.
  - apply (proj1 (HandleWrite_receives_iff_response_expected
                    (host no_reply) success (connected (host no_reply))
                    eq_refl eq_refl)).
    discriminate.
  - apply (proj1 (proj2 (HandleWrite_receives_iff_response_expected
                    (host no_reply) success
                    (set_timeout_for_response 0 (connected (host no_reply)))
                    eq_refl eq_refl))).
    reflexivity.
Defined.

(** The hypotheses of C8's theorem hold once the body ["PING"] has
    been read while the deadline was pending. *)
Lemma HandleRead_of_PING_cancels_first :
  chars (map Char PING) = Some PING
  /\ exists rest,
       effects (HandleRead (host replies_PONG) success
                  (set_timer {| expiry := 10000; pending_wait := true |}
                     (set_buffer (map Char PING) (connected (host no_reply)))))
       = timer_cancel :: on_message_received PING :: rest
       /\ (pending_wait
             (timer_ (state (HandleRead (host replies_PONG) success
                  (set_timer {| expiry := 10000; pending_wait := true |}
                     (set_buffer (map Char PING) (connected (host no_reply)))))))
           = true ->
           In (timer_async_wait bind_HandleTimeout) rest).
Proof.
  split; [reflexivity|].
  apply (proj1 (proj2 (HandleRead_cancels_deadline_before_dispatch
                  (host replies_PONG) success
                  (set_timer {| expiry := 10000; pending_wait := true |}
                     (set_buffer (map Char PING) (connected (host no_reply))))
                  PING eq_refl eq_refl eq_refl))).
Defined.

(** The hypotheses of C10's theorem hold for a length field of all
    ones, far above the limit of the sample host. *)
Lemma HandleSize_accepts_a_length_above_the_limit :
  kMaxTransportMessageSize (host no_reply) < 4294967295
  /\ 0 <= 4294967295 < DataSize_modulus (host no_reply)
  /\ HandleSize (host no_reply) success
       (set_buffer (map Char (DataSize_bytes (host no_reply) 4294967295))
          (connected (host no_reply)))
     = ([async_read 4294967295 bind_HandleRead],
        set_buffer (Allocate 4294967295)
          (set_buffer (map Char (DataSize_bytes (host no_reply) 4294967295))
             (connected (host no_reply))),
        Ok tt).
Proof.
  assert (0 <= 4294967295 < DataSize_modulus (host no_reply)) as Hn
    by (split; [discriminate | reflexivity]).
  split; [reflexivity|]. split; [exact Hn|].
  apply (proj1 (HandleSize_trusts_the_received_length
                  (host no_reply) success
                  (set_buffer (map Char (DataSize_bytes (host no_reply) 4294967295))
                     (connected (host no_reply)))
                  4294967295 eq_refl eq_refl Hn eq_refl)).
Defined.

(** X1 at work: the receive path on the frame of ["PING"]. *)
Lemma receive_PING :
  size PING < DataSize_modulus (host no_reply)
  /\ exists reply,
       effects (receive (host no_reply) (wire_frame (host no_reply) PING ++ [])
                  (connected (host no_reply)))
       = [async_read (Z.of_nat (sizeof_DataSize (host no_reply))) bind_HandleSize;
          timer_expires_from_now (timeout_for_response_ (connected (host no_reply)));
          timer_async_wait bind_HandleTimeout;
          async_read (size PING) bind_HandleRead;
          timer_cancel;
          on_message_received PING] ++ reply.
Proof.
  split; [reflexivity|].
  apply (receive_dispatches_the_framed_payload
           (host no_reply) PING [] (connected (host no_reply)));
    reflexivity.
Defined.

(** ** The further properties on the sample host *)

(** X3 at work: a body read that failed with an error code. *)
Lemma failed_read_is_reported_and_closed :
  In (on_error kReceiveFailure)
     (effects (invoke (host no_reply) bind_HandleRead (system_error 104)
                 (connected (host no_reply))))
  /\ kReceiveFailure <> kMessageSizeTooLarge
  /\ removals (effects (invoke (host no_reply) bind_HandleRead (system_error 104)
                          (connected (host no_reply)))) = 1%nat
  /\ socket_ (state (invoke (host no_reply) bind_HandleRead (system_error 104)
                       (connected (host no_reply)))) = false.
Proof.
  assert (In (on_error kReceiveFailure)
            (effects (invoke (host no_reply) bind_HandleRead (system_error 104)
                        (connected (host no_reply))))) as Hin
    by (left; reflexivity).
  assert (kReceiveFailure <> kMessageSizeTooLarge) as Hne by discriminate.
  destruct (reported_timeout_or_failure_closes (host no_reply) bind_HandleRead
              (system_error 104) (connected (host no_reply)) kReceiveFailure
              Hin Hne) as (R & _ & S & _).
  split; [exact Hin|]. split; [exact Hne|]. split; [exact R | exact S].
Defined.

(** X5 at work: the deadline of a length read fires, then the aborted
    read completes. *)
Lemma expired_length_read_reports_kReceiveTimeout :
  pending_wait (timer_ (state (StartReceiving (host no_reply)
                                 (connected (host no_reply))))) = true
  /\ exists expired,
       timer_expires (state (StartReceiving (host no_reply)
                               (connected (host no_reply))))
       = Some ([socket_close], expired, Ok tt)
       /\ effects (invoke (host no_reply) bind_HandleSize operation_aborted expired)
          = [on_error kReceiveTimeout; socket_close; timer_cancel; RemoveConnection].
Proof.
  split; [reflexivity|].
  destruct (expired_deadline_is_reported_as_timeout (host no_reply)
              bind_HandleSize operation_aborted
              (state (StartReceiving (host no_reply) (connected (host no_reply))))
              (or_intror (or_intror (or_introl eq_refl))) eq_refl)
    as (T & E & _).
  eexists. split; [exact T|]. rewrite E. reflexivity.
Defined.

(** X6 at work: the length field of a payload of 40 bytes reads back
    as 40. *)
Lemma Send_40_bytes_length_field_reads_back :
  size payload_40 <= kMaxTransportMessageSize (host no_reply)
  /\ kMaxTransportMessageSize (host no_reply) < DataSize_modulus (host no_reply)
  /\ Z.of_nat (sizeof_string (host no_reply)) <= size payload_40
  /\ Size (buffer_ (state (Send (host no_reply) payload_40 5000 true
                             (connected (host no_reply))))) = 44
  /\ load_DataSize (host no_reply)
       (buffer_ (state (Send (host no_reply) payload_40 5000 true
                          (connected (host no_reply))))) = Some 40
  /\ timeout_for_response_
       (state (Send (host no_reply) payload_40 5000 true
                 (connected (host no_reply)))) = 5000.
Proof.
  assert (size payload_40 <= kMaxTransportMessageSize (host no_reply)) as H1
    by (vm_compute; discriminate).
  assert (kMaxTransportMessageSize (host no_reply)
          < DataSize_modulus (host no_reply)) as H2 by reflexivity.
  assert (Z.of_nat (sizeof_string (host no_reply)) <= size payload_40) as H3
    by (vm_compute; discriminate).
  destruct (Send_length_field_reads_back (host no_reply) payload_40 5000 true
              (connected (host no_reply)) H1 H2 H3) as (S & L & T).
  split; [exact H1|]. split; [exact H2|]. split; [exact H3|].
  split; [exact S|]. split; [exact L | exact T].
Defined.

(** X7 at work: a request of 40 bytes that expects a response within
    5000 ticks, and one that expects none. *)
Lemma request_40_bytes_then_connect_then_write :
  to_DataSize (host no_reply) (size payload_40)
    <= kMaxTransportMessageSize (host no_reply)
  /\ Z.of_nat (sizeof_string (host no_reply))
     <= to_DataSize (host no_reply) (size payload_40)
  /\ effects (HandleWrite (host no_reply) success
                (state (HandleConnect (host no_reply) success
                          (state (Send (host no_reply) payload_40 5000 false
                                    (fresh (host no_reply)))))))
     = [async_read 4 bind_HandleSize; timer_expires_from_now 5000;
        timer_async_wait bind_HandleTimeout]
  /\ effects (HandleWrite (host no_reply) success
                (state (HandleConnect (host no_reply) success
                          (state (Send (host no_reply) payload_40 0 false
                                    (fresh (host no_reply)))))))
     = [socket_close; timer_cancel; RemoveConnection].
Proof.
  assert (to_DataSize (host no_reply) (size payload_40)
          <= kMaxTransportMessageSize (host no_reply)) as H1
    by (vm_compute; discriminate).
  assert (Z.of_nat (sizeof_string (host no_reply))
          <= to_DataSize (host no_reply) (size payload_40)) as H2
    by (vm_compute; discriminate).
  split; [exact H1|]. split; [exact H2|]. split.
  - destruct (request_then_connect_then_write (host no_reply) payload_40 5000
                success success (fresh (host no_reply)) H1 H2
                eq_refl eq_refl eq_refl)
      as (_ & _ & W).
    destruct W as (E & _); [discriminate | exact E].
  - destruct (request_then_connect_then_write (host no_reply) payload_40 0
                success success (fresh (host no_reply)) H1 H2
                eq_refl eq_refl eq_refl)
      as (_ & C & _).
    destruct C as (E & _); [reflexivity | exact E].
Defined.

(** X8 at work: the length field of ["PING"] arrives. *)
Lemma length_read_of_PING_keeps_the_deadline :
  (sizeof_DataSize (host no_reply)
   <= length (wire_frame (host no_reply) PING))%nat
  /\ timer_ (state (read_completes (host no_reply) (wire_frame (host no_reply) PING)
                      bind_HandleSize
                      (state (StartReceiving (host no_reply)
                                (connected (host no_reply))))))
     = {| expiry := 10000; pending_wait := true |}.
Proof.
  assert (sizeof_DataSize (host no_reply)
          <= length (wire_frame (host no_reply) PING))%nat as H1
    by (apply Nat.leb_le; reflexivity).
  split; [exact H1|].
  destruct (length_read_keeps_the_deadline (host no_reply)
              (wire_frame (host no_reply) PING) (connected (host no_reply))
              eq_refl H1) as (_ & _ & _ & _ & T).
  exact T.
Defined.

(** X9 at work: ["PING"] answered with 40 bytes and a timeout of 5000
    ticks. *)
Lemma PING_is_answered_with_40_bytes :
  chars (buffer_ (set_buffer (map Char PING) (connected (host replies_40_bytes))))
    = Some PING
  /\ to_DataSize (host replies_40_bytes) (size payload_40)
     <= kMaxTransportMessageSize (host replies_40_bytes)
  /\ Z.of_nat (sizeof_string (host replies_40_bytes))
     <= to_DataSize (host replies_40_bytes) (size payload_40)
  /\ effects (HandleRead (host replies_40_bytes) success
                (set_buffer (map Char PING) (connected (host replies_40_bytes))))
     = [timer_cancel; on_message_received PING;
        timer_expires_from_now 500; timer_async_wait bind_HandleTimeout;
        async_write (frame (host replies_40_bytes) payload_40) bind_HandleWrite]
  /\ timeout_for_response_
       (state (HandleRead (host replies_40_bytes) success
                 (set_buffer (map Char PING) (connected (host replies_40_bytes)))))
     = 5000.
Proof.
  assert (to_DataSize (host replies_40_bytes) (size payload_40)
          <= kMaxTransportMessageSize (host replies_40_bytes)) as H1
    by (vm_compute; discriminate).
  assert (Z.of_nat (sizeof_string (host replies_40_bytes))
          <= to_DataSize (host replies_40_bytes) (size payload_40)) as H2
    by (vm_compute; discriminate).
  split; [reflexivity|]. split; [exact H1|]. split; [exact H2|].
  destruct (reply_is_written_then_closed_or_awaited (host replies_40_bytes) PING
              payload_40 5000 success success
              (set_buffer (map Char PING) (connected (host replies_40_bytes)))
              eq_refl eq_refl eq_refl eq_refl eq_refl
              ltac:(discriminate) H1 H2) as (E & T & _).
  split; [exact E | exact T].
Defined.


(** X11 at work: a response of 40 bytes sent on a socket that was
    never opened. *)
Lemma response_on_a_fresh_connection_stops :
  NDEBUG (host no_reply) = false
  /\ socket_ (fresh (host no_reply)) = negb true
  /\ to_DataSize (host no_reply) (size payload_40)
     <= kMaxTransportMessageSize (host no_reply)
  /\ Z.of_nat (sizeof_string (host no_reply))
     <= to_DataSize (host no_reply) (size payload_40)
  /\ outcome (Send (host no_reply) payload_40 0 true (fresh (host no_reply)))
     = Stop assertion_failed
  /\ effects (Send (host no_reply) payload_40 0 true (fresh (host no_reply))) = []
  /\ timeout_for_response_
       (state (Send (host no_reply) payload_40 0 true (fresh (host no_reply)))) = 0.
Proof.
  assert (to_DataSize (host no_reply) (size payload_40)
          <= kMaxTransportMessageSize (host no_reply)) as H1
    by (vm_compute; discriminate).
  assert (Z.of_nat (sizeof_string (host no_reply))
          <= to_DataSize (host no_reply) (size payload_40)) as H2
    by (vm_compute; discriminate).
  split; [reflexivity|]. split; [reflexivity|]. split; [exact H1|].
  split; [exact H2|].
  destruct (Send_against_its_assert_starts_nothing (host no_reply) payload_40 0
              true (fresh (host no_reply)) eq_refl eq_refl H1 H2)
    as (O & E & _ & _ & _ & T).
  split; [exact O|]. split; [exact E | exact T].
Defined.
